(** * Article summary generator: request validation, prompt rendering,
      bounded retry around the generation call, result metrics, telemetry
      pass-through and the /summarize endpoint.

    Shallow embedding of
      - backend/models.py            (SummaryRequest, validate_text)
      - services/gemini_service.py   (_get_summary_prompt, summarize_text,
                                      _generate_with_retry)
      - services/langsmith_service.py (track_summarization, log_error)
      - backend/main.py              (summarize_article)

    Conventions.
      - A Python [str] is a list of Unicode code points ([N]); [len] counts
        code points and is a Python int ([Z]).
      - Python ints are [Z].  The true division [a / b] of two ints is the
        exact rational quotient ([Q], kept in lowest terms); CPython returns
        the double nearest to that rational.  The range of doubles is kept
        where the code converts an int to one: the delay handed to
        [asyncio.sleep] raises OverflowError when it has no double.
      - Exceptions range over the subclasses of [Exception], which is what
        every [except Exception] clause of the sources catches.  Signals that
        derive from [BaseException] only (task cancellation, interpreter
        exit) are outside the model.
      - Effects (remote calls, sleeps, clock reads, log lines, prints) are
        threaded through an explicit [World] by a small state-and-exception
        monad. *)

From Stdlib Require Import Strings.String Strings.Ascii.
From Stdlib Require Import List ZArith NArith QArith Bool Lia.
Import ListNotations.

Local Open Scope Z_scope.

(* ------------------------------------------------------------------ *)
(** ** Python strings *)
(* ------------------------------------------------------------------ *)

Definition char := N.
Definition pystr := list char.

(** A source literal (ASCII only) as a Python string. *)
Definition py (s : string) : pystr := map N_of_ascii (list_ascii_of_string s).
Arguments py s%_string.

Definition len {A : Type} (l : list A) : Z := Z.of_nat (length l).

Definition space : char := 32%N.
Definition newline : char := 10%N.

(** [str.isspace] on one code point; the same predicate decides the regular
    expression class [\s] on [str] patterns and the separators of
    [str.split()] and [str.strip()]. *)
Definition isspace (c : char) : bool :=
  (((9 <=? c) && (c <=? 13)) || ((28 <=? c) && (c <=? 32))
   || (c =? 133) || (c =? 160) || (c =? 5760)
   || ((8192 <=? c) && (c <=? 8202))
   || (c =? 8232) || (c =? 8233) || (c =? 8239) || (c =? 8287)
   || (c =? 12288))%N.

Fixpoint lstrip (s : pystr) : pystr :=
  match s with
  | [] => []
  | c :: r => if isspace c then lstrip r else s
  end.

Fixpoint rstrip (s : pystr) : pystr :=
  match s with
  | [] => []
  | c :: r =>
      match rstrip r with
      | [] => if isspace c then [] else [c]
      | r' => c :: r'
      end
  end.

(** [s.strip()] *)
Definition strip (s : pystr) : pystr := rstrip (lstrip s).

(** [s.split()]: the maximal runs of non-whitespace code points, in order. *)
Fixpoint split (s : pystr) : list pystr :=
  match s with
  | [] => []
  | c :: r =>
      if isspace c then split r
      else match r with
           | [] => [[c]]
           | d :: _ =>
               if isspace d then [c] :: split r
               else match split r with
                    | w :: ws => (c :: w) :: ws
                    | [] => [[c]]
                    end
           end
  end.

(** [re.sub(r'\s+', ' ', v)]: every maximal run of whitespace is replaced by
    one U+0020.  [in_run] tells that the previous code point belonged to the
    run being replaced. *)
Fixpoint sub_ws_runs (in_run : bool) (v : pystr) : pystr :=
  match v with
  | [] => []
  | c :: r =>
      if isspace c
      then (if in_run then sub_ws_runs true r else space :: sub_ws_runs true r)
      else c :: sub_ws_runs false r
  end.

Definition re_sub_ws (v : pystr) : pystr := sub_ws_runs false v.

(** [' '.join(ws)] *)
Fixpoint join_space (ws : list pystr) : pystr :=
  match ws with
  | [] => []
  | [w] => w
  | w :: rest => w ++ space :: join_space rest
  end.

(** [needle in hay] *)
Fixpoint startswith (needle hay : pystr) : bool :=
  match needle, hay with
  | [], _ => true
  | _ :: _, [] => false
  | a :: n', b :: h' => (a =? b)%N && startswith n' h'
  end.

Fixpoint contains (needle hay : pystr) : bool :=
  startswith needle hay
  || match hay with
     | [] => false
     | _ :: h' => contains needle h'
     end.

(** The declarative reading of [needle in hay]. *)
Definition substring (needle hay : pystr) : Prop :=
  exists pre post, hay = pre ++ needle ++ post.

(* ------------------------------------------------------------------ *)
(** ** backend/models.py: SummaryRequest *)
(* ------------------------------------------------------------------ *)

Inductive result (E A : Type) : Type :=
| Ok (a : A)
| Err (e : E).
Arguments Ok {E A} a.
Arguments Err {E A} e.

(** What a failed validation of the [text] field reports. *)
Inductive validation_error : Type :=
| string_too_short          (* Field(min_length=50) *)
| string_too_long           (* Field(max_length=50000) *)
| value_error (msg : string) (* ValueError raised by the validator *).

(** [@validator('text') def validate_text(cls, v)] *)
Definition validate_text (v : pystr) : result validation_error pystr :=
  match strip v with
  | [] => Err (value_error "Text cannot be empty or only whitespace")
  | _ :: _ =>
      let v := strip (re_sub_ws v) in
      let words := split v in
      if len words <? 10
      then Err (value_error "Text must contain at least 10 words")
      else Ok v
  end.

(** Validation of the field [text: str = Field(..., min_length=50,
    max_length=50000)]: the length constraints of the field are checked on
    the received string, then the validator [validate_text] runs on it. *)
Definition SummaryRequest_text (raw : pystr) : result validation_error pystr :=
  if len raw <? 50 then Err string_too_short
  else if 50000 <? len raw then Err string_too_long
  else validate_text raw.

(** [@validator('summary_length') def validate_summary_length(cls, v)] *)
Definition tier_tokens : list pystr := [py "short"; py "medium"; py "long"].

Fixpoint pystr_eqb (a b : pystr) : bool :=
  match a, b with
  | [], [] => true
  | x :: a', y :: b' => (x =? y)%N && pystr_eqb a' b'
  | _, _ => false
  end.

Definition validate_summary_length (v : pystr) : result validation_error pystr :=
  if existsb (pystr_eqb v) tier_tokens then Ok v
  else Err (value_error "Summary length must be short, medium, or long").

(** The request model after validation. *)
Record SummaryRequest : Type := {
  req_text : pystr;
  req_summary_length : pystr
}.

(* ------------------------------------------------------------------ *)
(** ** Exceptions, the world and the effect monad *)
(* ------------------------------------------------------------------ *)

(** Instances of [Exception].  [ValueError] stands for [ValueError] and its
    subclasses, which [except ValueError] catches alike. *)
Inductive exn : Type :=
| ValueError (msg : string)
| RuntimeError (msg : string)
| OtherException (cls msg : string).

Definition isinstance_ValueError (e : exn) : bool :=
  match e with
  | ValueError _ => true
  | _ => false
  end.

(** [str(e)] *)
Definition exn_str (e : exn) : string :=
  match e with
  | ValueError m | RuntimeError m | OtherException _ m => m
  end.

(** The object the generation call returns: its [text] attribute may be
    [None] or the empty string. *)
Record GenerateContentResponse : Type := {
  response_text : option pystr
}.

(** One invocation of [self.model.generate_content]. *)
Inductive call_outcome : Type :=
| Returns (response : option GenerateContentResponse)
| Raises (e : exn).

Inductive log_level : Type := info | warning | error.

Inductive event : Type :=
| EvCall (prompt : pystr)               (* model.generate_content(prompt, ...) *)
| EvSleep (seconds : Z)                 (* await asyncio.sleep(seconds) *)
| EvLog (lvl : log_level) (msg : string) (* logger.<lvl>(msg, ...) *)
| EvPrint (msg : string) (attempt : Z). (* print(...) of the service *)

Record World : Type := {
  events : list event;   (* everything done so far, oldest first *)
  calls_made : nat;      (* generate_content invocations so far *)
  clock_reads : nat      (* time.time() invocations so far *)
}.

Definition initial_world : World :=
  {| events := []; calls_made := 0%nat; clock_reads := 0%nat |}.

(** The metadata dictionary built by [track_summarization]. *)
Record Metadata : Type := {
  input_length : Z;
  input_word_count : Z;
  summary_length_setting : pystr;
  output_word_count : Z;
  md_compression_ratio : Q;
  md_processing_time : Q;
  model : string
}.

(** What lies outside the program: the behaviour of the hosted model at its
    k-th invocation, the wall clock at its k-th reading, and the two
    operations of the telemetry side channel: the body of the hook
    [_log_metrics] (a placeholder in the sources) and the structured log
    line that carries the metadata.  [None] means the operation returns
    normally, [Some e] that it raises [e]. *)
Record Env : Type := {
  generate_content : nat -> pystr -> call_outcome;
  time_time : nat -> Q;
  log_metrics_body : Metadata -> option exn;
  tracked_log : Metadata -> option exn
}.

Definition M (A : Type) : Type := World -> result exn A * World.

Definition ret {A : Type} (a : A) : M A := fun w => (Ok a, w).

Definition bind {A B : Type} (m : M A) (k : A -> M B) : M B :=
  fun w =>
    match m w with
    | (Ok a, w') => k a w'
    | (Err e, w') => (Err e, w')
    end.

Definition raise {A : Type} (e : exn) : M A := fun w => (Err e, w).

(** [try: m  except Exception as e: h e] *)
Definition try_except {A : Type} (m : M A) (h : exn -> M A) : M A :=
  fun w =>
    match m w with
    | (Ok a, w') => (Ok a, w')
    | (Err e, w') => h e w'
    end.

Declare Scope py_scope.
Delimit Scope py_scope with py.
Notation "x <- m ;; k" := (bind m (fun x => k))
  (at level 61, m at next level, right associativity) : py_scope.
Notation "m ;; k" := (bind m (fun _ => k))
  (at level 61, right associativity) : py_scope.
Local Open Scope py_scope.

Definition emit (e : event) : M unit :=
  fun w => (Ok tt, {| events := events w ++ [e];
                      calls_made := calls_made w;
                      clock_reads := clock_reads w |}).

Definition logger (lvl : log_level) (msg : string) : M unit := emit (EvLog lvl msg).
Definition print (msg : string) (attempt : Z) : M unit := emit (EvPrint msg attempt).

(** [float(n)] of an int [n]: the conversion rounds to the nearest double,
    and raises OverflowError when that is beyond the largest one,
    [2^1024 - 2^971], which is the case from [2^1024 - 2^970] on. *)
Definition float_overflows (n : Z) : bool := 2 ^ 1024 - 2 ^ 970 <=? Z.abs n.

Definition OverflowError : exn :=
  OtherException "OverflowError" "int too large to convert to float".

(** [await asyncio.sleep(seconds)] with an int, on the standard event
    loop: a delay that is not positive only yields; a positive one is added
    to the loop's float clock, so a delay that has no float raises
    OverflowError and nothing is slept. *)
Definition asyncio_sleep (seconds : Z) : M unit :=
  if (0 <? seconds) && float_overflows seconds then raise OverflowError
  else emit (EvSleep seconds).

(** [time.time()] *)
Definition time_now (env : Env) : M Q :=
  fun w => (Ok (time_time env (clock_reads w)),
            {| events := events w;
               calls_made := calls_made w;
               clock_reads := S (clock_reads w) |}).

(** [self.model.generate_content(prompt, safety_settings=..., generation_config=...)] *)
Definition model_generate_content (env : Env) (prompt : pystr)
  : M (option GenerateContentResponse) :=
  fun w =>
    let w' := {| events := events w ++ [EvCall prompt];
                 calls_made := S (calls_made w);
                 clock_reads := clock_reads w |} in
    match generate_content env (calls_made w) prompt with
    | Returns r => (Ok r, w')
    | Raises e => (Err e, w')
    end.

(* ------------------------------------------------------------------ *)
(** ** services/gemini_service.py *)
(* ------------------------------------------------------------------ *)

Definition instruction_short : pystr := py "in 2-3 sentences (50-100 words)".
Definition instruction_medium : pystr := py "in 1-2 paragraphs (100-200 words)".
Definition instruction_long : pystr := py "in 2-3 paragraphs (200-300 words)".

Definition length_instructions : list (pystr * pystr) :=
  [ (py "short", instruction_short);
    (py "medium", instruction_medium);
    (py "long", instruction_long) ].

(** [d.get(key, default)] on a dict given by its items. *)
Fixpoint dict_get (d : list (pystr * pystr)) (key default : pystr) : pystr :=
  match d with
  | [] => default
  | (k, v) :: d' => if pystr_eqb k key then v else dict_get d' key default
  end.

Definition ln (s : string) : pystr := py s ++ [newline].
Arguments ln s%_string.

(** The three literal pieces of the f-string around [{instruction}] and
    [{text}]. *)
Definition prompt_head : pystr :=
  [newline]
  ++ py "        Please provide a comprehensive summary of the following text ".

Definition prompt_middle : pystr :=
  ln "."
  ++ [newline]
  ++ ln "        Focus on:"
  ++ ln "        1. Main topics and key points"
  ++ ln "        2. Important facts and findings"
  ++ ln "        3. Conclusions or recommendations if present"
  ++ ln "        4. Keep the summary coherent and well-structured"
  ++ [newline]
  ++ ln "        Text to summarize:"
  ++ py "        ".

Definition prompt_tail : pystr :=
  [newline]
  ++ [newline]
  ++ ln "        Summary:"
  ++ py "        ".

Definition _get_summary_prompt (text length : pystr) : pystr :=
  let instruction :=
    dict_get length_instructions length
             (dict_get length_instructions (py "medium") []) in
  prompt_head ++ instruction ++ prompt_middle ++ text ++ prompt_tail.

(** [a / b] on ints. *)
Definition truediv (a b : Z) : M Q :=
  if b =? 0 then raise (OtherException "ZeroDivisionError" "division by zero")
  else ret (Qred (inject_Z a / inject_Z b)).

(** The dictionary [summarize_text] returns. *)
Record SummaryResult : Type := {
  summary : pystr;
  original_length : Z;
  summary_length : Z;
  compression_ratio : Q;
  processing_time : Q
}.

(** [def _generate_with_retry(self, prompt)] *)
Definition _generate_with_retry (env : Env) (prompt : pystr)
  : M (option GenerateContentResponse) :=
  try_except
    (model_generate_content env prompt)
    (fun e => logger error "Gemini API call failed" ;; raise e).

(** [not response or not response.text] *)
Definition response_payload (response : option GenerateContentResponse)
  : option pystr :=
  match response with
  | None => None
  | Some r =>
      match response_text r with
      | None => None
      | Some [] => None
      | Some (c :: t) => Some (c :: t)
      end
  end.

(** The body of the [try] block of one iteration of the loop. *)
Definition attempt_body (env : Env) (text tier : pystr) (start_time : Q)
    (attempt : Z) : M SummaryResult :=
  let prompt := _get_summary_prompt text tier in
  print "GEMINI SERVICE: Attempt, calling AI..." (attempt + 1) ;;
  logger info "Generating summary" ;;
  response <- _generate_with_retry env prompt ;;
  print "GEMINI SERVICE: AI call successful" (attempt + 1) ;;
  match response_payload response with
  | None => raise (ValueError "Empty response from Gemini API")
  | Some response_text =>
      let summary := strip response_text in
      now <- time_now env ;;
      let processing_time := (now - start_time)%Q in
      let original_length := len (split text) in
      let summary_word_count := len (split summary) in
      compression_ratio <-
        (if 0 <? original_length
         then truediv summary_word_count original_length
         else ret 0%Q) ;;
      logger info "Summary generated successfully" ;;
      ret {| summary := summary;
             original_length := original_length;
             summary_length := summary_word_count;
             compression_ratio := compression_ratio;
             processing_time := processing_time |}
  end.

(** [for attempt in range(max_retries): try: ... except Exception as e: ...],
    from iteration [attempt] on, with [remaining] iterations left; the
    statement after the loop is reached when none is left.  The handler
    runs outside the [try] block: an exception of [asyncio.sleep] leaves
    the loop and the function. *)
Fixpoint attempts_from (env : Env) (text tier : pystr) (max_retries : Z)
    (start_time : Q) (remaining : nat) (attempt : Z) : M SummaryResult :=
  match remaining with
  | O => raise (RuntimeError "Failed to generate summary after all retries")
  | S remaining' =>
      try_except
        (attempt_body env text tier start_time attempt)
        (fun e =>
           logger warning "Summary generation attempt failed" ;;
           if attempt =? max_retries - 1
           then logger error "All summary generation attempts failed" ;;
                raise e
           else asyncio_sleep (2 ^ attempt) ;;
                attempts_from env text tier max_retries start_time
                              remaining' (attempt + 1))
  end.

(** [async def summarize_text(self, text, summary_length="medium",
    max_retries=3)] *)
Definition summarize_text (env : Env) (text tier : pystr) (max_retries : Z)
  : M SummaryResult :=
  start_time <- time_now env ;;
  attempts_from env text tier max_retries start_time (Z.to_nat max_retries) 0.

(* ------------------------------------------------------------------ *)
(** ** services/langsmith_service.py *)
(* ------------------------------------------------------------------ *)

Record LangSmithService : Type := {
  enabled : bool;
  client : option unit   (* the Client handle, or None *)
}.

Definition run_side_effect (o : option exn) : M unit :=
  match o with
  | None => ret tt
  | Some e => raise e
  end.

(** [async def _log_metrics(self, metadata)] *)
Definition _log_metrics (env : Env) (metadata : Metadata) : M unit :=
  try_except
    (run_side_effect (log_metrics_body env metadata))
    (fun e => logger warning "Failed to log metrics to LangSmith").

(** [async def track_summarization(self, text, summary_length, result)] *)
Definition track_summarization (env : Env) (self : LangSmithService)
    (text tier : pystr) (result : SummaryResult) : M SummaryResult :=
  print "LANGSMITH: track_summarization called!" 0 ;;
  print "LANGSMITH: @traceable decorator should be active" 0 ;;
  print "LANGSMITH: Environment check" 0 ;;
  if negb (enabled self) then ret result
  else
    try_except
      (let metadata :=
         {| input_length := len text;
            input_word_count := len (split text);
            summary_length_setting := tier;
            output_word_count := summary_length result;
            md_compression_ratio := compression_ratio result;
            md_processing_time := processing_time result;
            model := "gemini-pro" |} in
       (match client self with
        | Some _ => _log_metrics env metadata
        | None => ret tt
        end) ;;
       run_side_effect (tracked_log env metadata) ;;
       logger info "Summarization tracked in LangSmith")
      (fun e => logger warning "Failed to track in LangSmith") ;;
    ret result.

(** [def log_error(self, error, context)] *)
Definition log_error (self : LangSmithService) (e : exn) : M unit :=
  if negb (enabled self) then ret tt
  else
    try_except
      (logger error "Error in summarization pipeline")
      (fun _ => logger warning "Failed to log error to LangSmith").

(* ------------------------------------------------------------------ *)
(** ** backend/main.py *)
(* ------------------------------------------------------------------ *)

Record ErrorResponse : Type := {
  error_title : string;
  detail : string;
  error_code : string
}.

(** [HTTPException(status_code=..., detail=...)] *)
Record HTTPException : Type := {
  status_code : Z;
  http_detail : ErrorResponse
}.

(** What the endpoint hands to the framework: the response model, or the
    HTTP error it raised. *)
Definition Endpoint (A : Type) : Type := World -> result HTTPException A * World.

(** The [try] block of [summarize_article].  The response model
    [SummaryResponse] is built from the five entries of the dictionary and
    holds them as they are. *)
Definition summarize_article_body (env : Env) (langsmith_service : LangSmithService)
    (summary_request : SummaryRequest) : M SummaryResult :=
  logger info "Summarization request received" ;;
  result <- summarize_text env (req_text summary_request)
                           (req_summary_length summary_request) 3 ;;
  result <- track_summarization env langsmith_service
                                (req_text summary_request)
                                (req_summary_length summary_request) result ;;
  let response := result in
  logger info "Summarization completed successfully" ;;
  ret response.

(** [@app.post("/summarize") async def summarize_article(request,
    summary_request)] *)
Definition summarize_article (env : Env) (langsmith_service : LangSmithService)
    (summary_request : SummaryRequest) : Endpoint SummaryResult :=
  fun w =>
    match summarize_article_body env langsmith_service summary_request w with
    | (Ok response, w') => (Ok response, w')
    | (Err e, w') =>
        if isinstance_ValueError e
        then (* except ValueError as e *)
          let w'' := snd (logger warning "Validation error" w') in
          (Err {| status_code := 400;
                  http_detail := {| error_title := "Validation error";
                                    detail := exn_str e;
                                    error_code := "VALIDATION_ERROR" |} |},
           w'')
        else (* except Exception as e *)
          let w1 := snd (logger error "Summarization failed" w') in
          let w2 := snd (log_error langsmith_service e w1) in
          (Err {| status_code := 500;
                  http_detail := {| error_title := "Summarization failed";
                                    detail := "Unable to generate summary. Please try again.";
                                    error_code := "SUMMARIZATION_ERROR" |} |},
           w2)
    end.

(* ------------------------------------------------------------------ *)
(** ** Observations on a run *)
(* ------------------------------------------------------------------ *)

(** A word of [split]: non-empty and free of whitespace. *)
Definition word (w : pystr) : Prop :=
  w <> [] /\ forallb (fun c => negb (isspace c)) w = true.

Definition leading_ws (s : pystr) : bool :=
  match s with
  | [] => false
  | c :: _ => isspace c
  end.

(** The tier instructions that occur in a string. *)
Definition tier_instructions : list pystr :=
  [instruction_short; instruction_medium; instruction_long].

Definition instructions_in (s : pystr) : list pystr :=
  filter (fun i => contains i s) tier_instructions.

(** [a] and [b] agree as far as both go: one is a prefix of the other. *)
Fixpoint agrees (a b : pystr) : bool :=
  match a, b with
  | x :: a', y :: b' => (x =? y)%N && agrees a' b'
  | _, _ => true
  end.

(** No occurrence of [needle] can start inside [left], whatever follows. *)
Fixpoint no_overlap (left needle : pystr) : bool :=
  match left with
  | [] => true
  | _ :: left' => negb (agrees needle left) && no_overlap left' needle
  end.

(** No non-empty suffix of [needle] starts [right]. *)
Fixpoint no_suffix_starts (needle right : pystr) : bool :=
  match needle with
  | [] => true
  | _ :: needle' =>
      negb (startswith needle right) && no_suffix_starts needle' right
  end.

(** The remote calls and sleeps of a trace, in order. *)
Definition is_io (e : event) : bool :=
  match e with
  | EvCall _ | EvSleep _ => true
  | _ => false
  end.

Definition io_trace (w : World) : list event := filter is_io (events w).

Definition sleeps_in (tr : list event) : list Z :=
  flat_map (fun e => match e with EvSleep s => [s] | _ => [] end) tr.

Definition calls_in (tr : list event) : list pystr :=
  flat_map (fun e => match e with EvCall p => [p] | _ => [] end) tr.

(** An attempt fails when the call raises, or returns without a payload. *)
Definition attempt_fails (o : call_outcome) : bool :=
  match o with
  | Raises _ => true
  | Returns r =>
      match response_payload r with
      | None => true
      | Some _ => false
      end
  end.

(** The payload of a successful attempt. *)
Definition attempt_payload (o : call_outcome) : option pystr :=
  match o with
  | Raises _ => None
  | Returns r => response_payload r
  end.

(** The exception with which a failed attempt leaves the [try] block. *)
Definition attempt_error (o : call_outcome) : exn :=
  match o with
  | Raises e => e
  | Returns _ => ValueError "Empty response from Gemini API"
  end.

(** Among the [k] invocations [c], [c+1], ... of the model, the offset of
    the first one that does not fail. *)
Fixpoint first_success (out : nat -> call_outcome) (c k : nat) : option nat :=
  match k with
  | O => None
  | S k' =>
      if attempt_fails (out c)
      then option_map S (first_success out (S c) k')
      else Some O
  end.

(** The compression ratio in the words of the specification:
    summaryWordCount / originalWordCount when originalWordCount > 0,
    else 0. *)
Definition spec_compression_ratio (summary_word_count original_word_count : Z) : Q :=
  if 0 <? original_word_count
  then Qred (inject_Z summary_word_count / inject_Z original_word_count)
  else 0%Q.

(** The dictionary a successful attempt returns for the payload
    [response_text], read off the [try] block. *)
Definition result_of (text response_text : pystr) (now start_time : Q)
  : SummaryResult :=
  {| summary := strip response_text;
     original_length := len (split text);
     summary_length := len (split (strip response_text));
     compression_ratio :=
       spec_compression_ratio (len (split (strip response_text)))
                              (len (split text));
     processing_time := (now - start_time)%Q |}.

(** The attempts a run can reach: those of the budget, and never more than
    the 1025 attempts 0 .. 1024, because the delay [2^1024] that would
    follow attempt 1024 cannot be slept. *)
Definition reachable_attempts (max_retries : Z) : nat :=
  Z.to_nat (Z.min max_retries 1025).

(** Calls and sleeps of a run that ends with its [k+1]-th call:
    call, sleep 1, call, sleep 2, ..., call. *)
Fixpoint backoff_schedule (prompt : pystr) (first : Z) (k : nat) : list event :=
  match k with
  | O => [EvCall prompt]
  | S k' => EvCall prompt :: EvSleep (2 ^ first)
            :: backoff_schedule prompt (first + 1) k'
  end.

(* ------------------------------------------------------------------ *)
(** ** Sample inputs and environments *)
(* ------------------------------------------------------------------ *)

(** Ten one-letter words followed by 31 spaces: 50 code points. *)
Definition padded_ten_words : pystr :=
  py "a b c d e f g h i j" ++ repeat space 31.

(** Ten words separated by runs of six spaces: 94 code points, 49 once
    normalised. *)
Definition spaced_pangram : pystr :=
  py "the      quick      brown      fox      jumps      over      the      lazy      dog      again".

(** [k] words, each followed by one space. *)
Definition words (k : nat) : pystr := concat (repeat (py "word ") k).

(** Twelve words in 60 code points, followed by 50000 spaces. *)
Definition long_padded : pystr :=
  words 12 ++ repeat space (Z.to_nat 50000).

Definition text_response (t : pystr) : call_outcome :=
  Returns (Some {| response_text := Some t |}).

Definition empty_text_response : call_outcome :=
  Returns (Some {| response_text := Some [] |}).

Definition missing_response : call_outcome := Returns None.

(** An environment whose model behaves as [out] at its k-th invocation,
    whose clock ticks once per reading and whose telemetry never raises. *)
Definition env_of (out : nat -> call_outcome) : Env :=
  {| generate_content := fun k _ => out k;
     time_time := fun k => inject_Z (Z.of_nat k);
     log_metrics_body := fun _ => None;
     tracked_log := fun _ => None |}.

(** [env] with the outcome of the model's [i]-th invocation replaced. *)
Definition with_outcome (env : Env) (i : nat) (o : call_outcome) : Env :=
  {| generate_content :=
       fun k prompt => if Nat.eqb k i then o else generate_content env k prompt;
     time_time := time_time env;
     log_metrics_body := log_metrics_body env;
     tracked_log := tracked_log env |}.

(** A normalised request text that quotes two tier instructions. *)
Definition quoting_text : pystr :=
  py "please summarise this in 2-3 sentences (50-100 words) or in 2-3 paragraphs (200-300 words) thank you".

(** An environment whose telemetry operations both raise, always. *)
Definition env_failing_telemetry (out : nat -> call_outcome) : Env :=
  {| generate_content := fun k _ => out k;
     time_time := fun k => inject_Z (Z.of_nat k);
     log_metrics_body :=
       fun _ => Some (OtherException "LangSmithError" "telemetry is down");
     tracked_log :=
       fun _ => Some (OtherException "TypeError" "not serializable") |}.

Definition tracing_enabled : LangSmithService :=
  {| enabled := true; client := Some tt |}.

Definition tracing_disabled : LangSmithService :=
  {| enabled := false; client := None |}.

Definition sample_request : SummaryRequest :=
  {| req_text := strip (words 12); req_summary_length := py "medium" |}.

(* ------------------------------------------------------------------ *)
(** ** frontend/app.py *)
(* ------------------------------------------------------------------ *)

(** [def validate_input(text) -> Optional[str]]: the message shown to the
    user, or [None] when the text may be sent. *)
Definition validate_input (text : pystr) : option string :=
  match strip text with
  | [] => Some "Please enter some text to summarize."%string
  | _ :: _ =>
      if len (strip text) <? 50
      then Some "Text must be at least 50 characters long."%string
      else if 50000 <? len text
      then Some "Text is too long. Please limit to 50,000 characters."%string
      else
        let words := split text in
        if len words <? 10
        then Some "Text must contain at least 10 words."%string
        else None
  end.

(** The values [display_stats] puts on the page, before formatting; a
    metric that is not shown is [None]. *)
Record Stats : Type := {
  stat_characters : Z;
  stat_words : Z;
  stat_compression : option Q;      (* per cent *)
  stat_processing_time : option Q
}.

(** [def display_stats(text, summary=None, processing_time=None)].  The
    tests [if summary:] and [if processing_time:] are Python truth tests:
    the empty string and the number zero count as absent. *)
Definition display_stats (text : pystr) (summary : option pystr)
    (processing_time : option Q) : Stats :=
  let words := len (split text) in
  let chars := len text in
  {| stat_characters := chars;
     stat_words := words;
     stat_compression :=
       match summary with
       | Some (c :: s) =>
           let summary_words := len (split (c :: s)) in
           Some (if 0 <? words
                 then (Qred (inject_Z summary_words / inject_Z words) * 100)%Q
                 else 0%Q)
       | _ => None
       end;
     stat_processing_time :=
       match processing_time with
       | Some t => if Qeq_bool t 0 then None else Some t
       | None => None
       end |}.

(** An entry of [st.session_state.summary_history]. *)
Record HistoryEntry : Type := {
  entry_original_text : pystr;
  entry_summary : pystr;
  entry_timestamp : string
}.

(** [enumerate(l)] counting from [i] *)
Fixpoint enumerate_from {A : Type} (i : nat) (l : list A) : list (nat * A) :=
  match l with
  | [] => []
  | x :: r => (i, x) :: enumerate_from (S i) r
  end.

(** [l[-n:]] for a positive [n] *)
Definition last_n {A : Type} (n : nat) (l : list A) : list A :=
  skipn (length l - n) l.

(** The "Recent Summaries" panel: for each of the last three entries, newest
    first, the number in the expander's title and the preview written in
    it.
    [for i, summary_data in enumerate(reversed(history[-3:]))] *)
Definition recent_summaries (history : list HistoryEntry) : list (Z * pystr) :=
  map (fun p : nat * HistoryEntry =>
         let (i, summary_data) := p in
         (len history - Z.of_nat i,
          firstn 100 (entry_summary summary_data) ++ py "..."))
      (enumerate_from 0 (rev (last_n 3 history))).

(* ------------------------------------------------------------------ *)
(** ** Construction of the services and the health endpoint *)
(* ------------------------------------------------------------------ *)

(** The fields of [config.Settings] the services read. *)
Record Settings : Type := {
  gemini_api_key : option string;
  langchain_tracing_v2 : bool;
  langchain_endpoint : string;
  langchain_api_key : option string;
  langchain_project : string
}.

(** Truth value of an [Optional[str]]: [None] and the empty string are
    false. *)
Definition truthy (o : option string) : bool :=
  match o with
  | Some (String _ _) => true
  | _ => false
  end.

(** [os.environ] *)
Definition Environ : Type := string -> option string.

Definition setenv (key value : string) (environ : Environ) : Environ :=
  fun k => if String.eqb k key then Some value else environ k.

(** [GeminiService.__init__], as far as it decides whether the service
    exists: the API key test that raises.  The configuration of the client
    library and the model handle it creates afterwards are not modelled. *)
Definition GeminiService_init (settings : Settings) : result exn unit :=
  if truthy (gemini_api_key settings) then Ok tt
  else Err (ValueError "GEMINI_API_KEY environment variable is required").

(** [LangSmithService.__init__].  [client_ctor] and [list_runs] are what
    the construction of the [Client] and the connection test
    [client.list_runs(limit=1)] do: [None] when they return, [Some e] when
    they raise [e].  The result is the service and the process environment
    it leaves; the values written to it are strings that [os.environ]
    accepts. *)
Definition LangSmithService_init (settings : Settings)
    (client_ctor list_runs : option exn) (environ : Environ)
  : M (LangSmithService * Environ) :=
  print "LANGSMITH DEBUG:" 0 ;;
  print "  LANGCHAIN_TRACING_V2" 0 ;;
  print "  LANGCHAIN_API_KEY" 0 ;;
  print "  LANGCHAIN_ENDPOINT" 0 ;;
  print "  LANGCHAIN_PROJECT" 0 ;;
  print "LANGSMITH SDK Version" 0 ;;
  let environ := setenv "LANGCHAIN_TRACING_V2" "true" environ in
  let environ := setenv "LANGSMITH_TRACING" "true" environ in
  print "LANGSMITH: After forcing env vars - LANGCHAIN_TRACING_V2" 0 ;;
  print "LANGSMITH: After forcing env vars - LANGSMITH_TRACING" 0 ;;
  (* self.client = None; self.enabled = False *)
  match langchain_tracing_v2 settings, langchain_api_key settings with
  | true, Some (String c k) =>
      let environ := setenv "LANGCHAIN_TRACING_V2" "True" environ in
      let environ :=
        setenv "LANGCHAIN_ENDPOINT" (langchain_endpoint settings) environ in
      let environ := setenv "LANGCHAIN_API_KEY" (String c k) environ in
      let environ :=
        setenv "LANGCHAIN_PROJECT" (langchain_project settings) environ in
      match client_ctor with
      | Some e =>
          (* Client(...) raised: self.client is still None *)
          logger warning "Failed to initialize LangSmith" ;;
          ret ({| enabled := false; client := None |}, environ)
      | None =>
          match list_runs with
          | Some e =>
              (* the connection test raised: self.client is set *)
              logger warning "Failed to initialize LangSmith" ;;
              ret ({| enabled := false; client := Some tt |}, environ)
          | None =>
              logger info "LangSmith integration enabled" ;;
              ret ({| enabled := true; client := Some tt |}, environ)
          end
      end
  | _, _ =>
      logger info "LangSmith integration disabled - missing configuration" ;;
      ret ({| enabled := false; client := None |}, environ)
  end.

(** The dictionary [health_check] returns. *)
Record Health : Type := {
  health_status : string;
  health_timestamp : Q;
  health_gemini : string;
  health_langsmith : string
}.

(** [@app.get("/health") async def health_check()] *)
Definition health_check (env : Env) (settings : Settings)
    (langsmith_service : LangSmithService) : M Health :=
  now <- time_now env ;;
  ret {| health_status := "healthy";
         health_timestamp := now;
         health_gemini :=
           if truthy (gemini_api_key settings)
           then "configured" else "not_configured";
         health_langsmith :=
           if enabled langsmith_service then "enabled" else "disabled" |}.

(** Seconds slept in a trace. *)
Definition total_sleep (tr : list event) : Z :=
  fold_right Z.add 0 (sleeps_in tr).

(** Number of log lines of a level and message in a trace. *)
Definition count_log (lvl : log_level) (msg : string) (tr : list event) : nat :=
  length (filter (fun e => match e with
                           | EvLog l m =>
                               match lvl, l with
                               | info, info | warning, warning
                               | error, error => String.eqb m msg
                               | _, _ => false
                               end
                           | _ => false
                           end) tr).

(** What one iteration's [try] block adds to the trace, by the outcome of
    its call. *)
Definition attempt_events (prompt : pystr) (attempt : Z) (o : call_outcome)
  : list event :=
  [EvPrint "GEMINI SERVICE: Attempt, calling AI..." (attempt + 1);
   EvLog info "Generating summary";
   EvCall prompt]
  ++ match o with
     | Raises _ => [EvLog error "Gemini API call failed"]
     | Returns r =>
         EvPrint "GEMINI SERVICE: AI call successful" (attempt + 1)
         :: match response_payload r with
            | Some _ => [EvLog info "Summary generated successfully"]
            | None => []
            end
     end.

(* ================================================================== *)
(** * Properties *)
(* ================================================================== *)

(* ------------------------------------------------------------------ *)
(** ** Whitespace normalisation *)
(* ------------------------------------------------------------------ *)

Section Whitespace.

Lemma isspace_space : isspace space = true.
Proof. reflexivity. Qed.

Lemma split_cons_ws (c : char) (r : pystr) :
  isspace c = true -> split (c :: r) = split r.
Proof. intros H. simpl. now rewrite H. Qed.

Lemma split_nonspace_head (c : char) (r : pystr) :
  isspace c = false -> split (c :: r) <> [].
Proof.
  intros H. simpl. rewrite H.
  destruct r as [|d r']; [discriminate|].
  destruct (isspace d); [discriminate|].
  destruct (split (d :: r')); discriminate.
Qed.

Lemma split_words (s : pystr) : Forall word (split s).
Proof.
  induction s as [|c r IH]; [constructor|].
  simpl. destruct (isspace c) eqn:Hc; [exact IH|].
  assert (Hone : word [c]).
  { split; [discriminate|]. simpl. now rewrite Hc. }
  destruct r as [|d r']; [constructor; [exact Hone|constructor]|].
  destruct (isspace d) eqn:Hd; [constructor; [exact Hone|exact IH]|].
  destruct (split (d :: r')) as [|w ws] eqn:Hs;
    [constructor; [exact Hone|constructor]|].
  inversion IH as [|? ? [Hw1 Hw2] Hws]; subst.
  constructor; [|exact Hws].
  split; [discriminate|]. simpl. now rewrite Hc.
Qed.

Lemma join_space_nonempty (w : pystr) (ws : list pystr) :
  w <> [] -> join_space (w :: ws) <> [].
Proof.
  intros Hw. destruct w as [|c w']; [contradiction|].
  destruct ws; simpl; discriminate.
Qed.

Lemma join_space_cons_head (c : char) (w : pystr) (ws : list pystr) :
  join_space ((c :: w) :: ws) = c :: join_space (w :: ws).
Proof. destruct ws; reflexivity. Qed.

Lemma lstrip_sub_ws (s : pystr) :
  forall b, lstrip (sub_ws_runs b s) = sub_ws_runs false (lstrip s).
Proof.
  induction s as [|c r IH]; intros b; [reflexivity|].
  simpl. destruct (isspace c) eqn:Hc.
  - destruct b; simpl; rewrite ?isspace_space; apply IH.
  - simpl. now rewrite Hc.
Qed.

Lemma lstrip_no_leading_ws (s : pystr) : leading_ws (lstrip s) = false.
Proof.
  induction s as [|c r IH]; [reflexivity|].
  simpl. destruct (isspace c) eqn:Hc; [exact IH|]. simpl. exact Hc.
Qed.

Lemma split_lstrip (s : pystr) : split (lstrip s) = split s.
Proof.
  induction s as [|c r IH]; [reflexivity|].
  simpl lstrip. destruct (isspace c) eqn:Hc; [|reflexivity].
  now rewrite split_cons_ws.
Qed.

Lemma rstrip_sub_ws (s : pystr) :
  forall b,
    rstrip (sub_ws_runs b s) =
    match split s with
    | [] => []
    | ws => (if leading_ws s && negb b then [space] else []) ++ join_space ws
    end.
Proof.
  induction s as [|c r IH]; intros b; [reflexivity|].
  pose proof (split_words r) as Hwr.
  cbn [sub_ws_runs leading_ws].
  destruct (isspace c) eqn:Hc.
  - rewrite (split_cons_ws c r Hc).
    assert (Ht : rstrip (sub_ws_runs true r) = join_space (split r)).
    { rewrite IH. rewrite andb_false_r. now destruct (split r). }
    destruct b; cbn [andb negb app].
    + rewrite Ht. now destruct (split r).
    + cbn [rstrip]. rewrite Ht, isspace_space.
      destruct (split r) as [|w ws]; [reflexivity|].
      inversion Hwr as [|? ? [Hw _] _]; subst.
      pose proof (join_space_nonempty w ws Hw) as Hne.
      destruct (join_space (w :: ws)); [contradiction|reflexivity].
  - cbn [andb app rstrip]. rewrite (IH false), andb_true_r.
    simpl split. rewrite Hc.
    destruct r as [|d r']; [reflexivity|].
    cbn [leading_ws].
    destruct (isspace d) eqn:Hd.
    + destruct (split (d :: r')) as [|w ws]; [reflexivity|].
      reflexivity.
    + pose proof (split_nonspace_head d r' Hd) as Hne.
      destruct (split (d :: r')) as [|w ws]; [contradiction|].
      inversion Hwr as [|? ? [Hw _] _]; subst.
      cbn [app]. rewrite join_space_cons_head.
      pose proof (join_space_nonempty w ws Hw) as Hj.
      destruct (join_space (w :: ws)); [contradiction|reflexivity].
Qed.

(** The normalised text is the words of the input joined by single spaces. *)
Lemma normalize_join (s : pystr) :
  strip (re_sub_ws s) = join_space (split s).
Proof.
  unfold strip, re_sub_ws.
  rewrite lstrip_sub_ws, rstrip_sub_ws, lstrip_no_leading_ws, split_lstrip.
  now destruct (split s).
Qed.

Lemma split_cons_cons (c d : char) (r : pystr) :
  isspace c = false -> isspace d = false ->
  split (c :: d :: r) =
  match split (d :: r) with
  | w :: ws => (c :: w) :: ws
  | [] => [[c]]
  end.
Proof.
  intros Hc Hd.
  change (split (c :: d :: r))
    with (if isspace c then split (d :: r)
          else if isspace d then [c] :: split (d :: r)
               else match split (d :: r) with
                    | w :: ws => (c :: w) :: ws
                    | [] => [[c]]
                    end).
  now rewrite Hc, Hd.
Qed.

Lemma split_word_space (w t : pystr) :
  word w -> split (w ++ space :: t) = w :: split t.
Proof.
  revert t. induction w as [|c w IH]; intros t [Hne Hall]; [contradiction|].
  simpl in Hall. apply andb_true_iff in Hall as [Hc Hw].
  apply negb_true_iff in Hc.
  destruct w as [|d w'].
  - cbn [app split]. rewrite Hc. rewrite !isspace_space. reflexivity.
  - assert (Hd : isspace d = false).
    { simpl in Hw. apply andb_true_iff in Hw as [Hd _].
      now apply negb_true_iff in Hd. }
    change ((c :: d :: w') ++ space :: t) with (c :: d :: (w' ++ space :: t)).
    rewrite (split_cons_cons c d _ Hc Hd).
    change (d :: w' ++ space :: t) with ((d :: w') ++ space :: t).
    rewrite IH; [reflexivity|]. split; [discriminate|exact Hw].
Qed.

Lemma split_word (w : pystr) : word w -> split w = [w].
Proof.
  induction w as [|c w IH]; intros [Hne Hall]; [contradiction|].
  simpl in Hall. apply andb_true_iff in Hall as [Hc Hw].
  apply negb_true_iff in Hc.
  destruct w as [|d w']; [simpl; now rewrite Hc|].
  assert (Hd : isspace d = false).
  { simpl in Hw. apply andb_true_iff in Hw as [Hd _].
    now apply negb_true_iff in Hd. }
  rewrite (split_cons_cons c d _ Hc Hd).
  rewrite IH; [reflexivity|]. split; [discriminate|exact Hw].
Qed.

Lemma split_join_space (ws : list pystr) :
  Forall word ws -> split (join_space ws) = ws.
Proof.
  induction ws as [|w ws IH]; intros H; [reflexivity|].
  inversion H as [|? ? Hw Hws]; subst.
  destruct ws as [|w2 rest]; [now apply split_word|].
  change (join_space (w :: w2 :: rest))
    with (w ++ space :: join_space (w2 :: rest)).
  rewrite split_word_space by exact Hw.
  now rewrite IH.
Qed.

(** Normalisation keeps the words. *)
Lemma split_normalize (s : pystr) :
  split (strip (re_sub_ws s)) = split s.
Proof. rewrite normalize_join. apply split_join_space, split_words. Qed.

(** Normalisation is idempotent. *)
Lemma normalize_idempotent (s : pystr) :
  strip (re_sub_ws (strip (re_sub_ws s))) = strip (re_sub_ws s).
Proof. now rewrite (normalize_join (strip _)), split_normalize, normalize_join. Qed.

Lemma lstrip_nil_split (s : pystr) : lstrip s = [] -> split s = [].
Proof.
  induction s as [|c r IH]; [reflexivity|].
  simpl. destruct (isspace c); [exact IH|discriminate].
Qed.

Lemma rstrip_nonspace_head (c : char) (r : pystr) :
  isspace c = false -> rstrip (c :: r) <> [].
Proof.
  intros Hc. simpl. rewrite Hc. destruct (rstrip r); discriminate.
Qed.

Lemma strip_nil_split (s : pystr) : strip s = [] -> split s = [].
Proof.
  unfold strip. intros H. apply lstrip_nil_split.
  pose proof (lstrip_no_leading_ws s) as Hl.
  destruct (lstrip s) as [|c r]; [reflexivity|].
  simpl in Hl. now apply rstrip_nonspace_head with (r := r) in Hl.
Qed.

Lemma length_lstrip (s : pystr) : (length (lstrip s) <= length s)%nat.
Proof.
  induction s as [|c r IH]; [simpl; lia|].
  simpl. destruct (isspace c); simpl; lia.
Qed.

Lemma length_rstrip (s : pystr) : (length (rstrip s) <= length s)%nat.
Proof.
  induction s as [|c r IH]; [simpl; lia|].
  simpl. destruct (rstrip r); [destruct (isspace c)|]; simpl in *; lia.
Qed.

Lemma length_sub_ws (s : pystr) :
  forall b, (length (sub_ws_runs b s) <= length s)%nat.
Proof.
  induction s as [|c r IH]; intros b; [simpl; lia|].
  simpl. destruct (isspace c).
  - destruct b; simpl; specialize (IH true); lia.
  - simpl. specialize (IH false). lia.
Qed.

Lemma len_normalize (s : pystr) : len (strip (re_sub_ws s)) <= len s.
Proof.
  unfold len, strip, re_sub_ws.
  pose proof (length_rstrip (lstrip (sub_ws_runs false s))).
  pose proof (length_lstrip (sub_ws_runs false s)).
  pose proof (length_sub_ws s false). lia.
Qed.

End Whitespace.

(* ------------------------------------------------------------------ *)
(** ** One attempt and the retry loop *)
(* ------------------------------------------------------------------ *)

Section RetryLoop.

Variable env : Env.
Variables text tier : pystr.

Let prompt : pystr := _get_summary_prompt text tier.

Lemma io_trace_emit (e : event) (w : World) :
  io_trace (snd (emit e w)) = io_trace w ++ filter is_io [e].
Proof. unfold io_trace. simpl. apply filter_app. Qed.

Lemma guarded_truediv (s o : Z) (w : World) :
  (if 0 <? o then truediv s o else ret 0%Q) w
  = (Ok (spec_compression_ratio s o), w).
Proof.
  unfold spec_compression_ratio, truediv.
  destruct (0 <? o) eqn:Hpos; [|reflexivity].
  apply Z.ltb_lt in Hpos.
  destruct (o =? 0) eqn:Hz; [apply Z.eqb_eq in Hz; lia|reflexivity].
Qed.

(** What one attempt returns or raises. *)
Lemma attempt_body_result (start_time : Q) (attempt : Z) (w : World) :
  fst (attempt_body env text tier start_time attempt w) =
  let o := generate_content env (calls_made w) prompt in
  match attempt_payload o with
  | Some t => Ok (result_of text t (time_time env (clock_reads w)) start_time)
  | None => Err (attempt_error o)
  end.
Proof.
  unfold attempt_body, _generate_with_retry, model_generate_content,
    try_except, bind, print, logger, emit, raise, ret, time_now.
  fold prompt. cbn [calls_made clock_reads events].
  destruct (generate_content env (calls_made w) prompt) as [r|e];
    cbn [attempt_payload attempt_error fst]; [|reflexivity].
  destruct (response_payload r) as [t|]; [|reflexivity].
  cbn [calls_made clock_reads events].
  rewrite guarded_truediv. reflexivity.
Qed.

(** One attempt performs exactly one remote call and no sleep. *)
Lemma attempt_body_io (start_time : Q) (attempt : Z) (w : World) :
  io_trace (snd (attempt_body env text tier start_time attempt w))
  = io_trace w ++ [EvCall prompt].
Proof.
  unfold attempt_body, _generate_with_retry, model_generate_content,
    try_except, bind, print, logger, emit, raise, ret, time_now.
  fold prompt. cbn [calls_made clock_reads events].
  destruct (generate_content env (calls_made w) prompt) as [r|e].
  - destruct (response_payload r) as [t|].
    + cbn [calls_made clock_reads events]. rewrite guarded_truediv.
      unfold io_trace. cbn [snd events].
      rewrite !filter_app. cbn. now rewrite !app_nil_r.
    + unfold io_trace. cbn [snd events].
      rewrite !filter_app. cbn. now rewrite !app_nil_r.
  - unfold io_trace. cbn [snd events].
    rewrite !filter_app. cbn. now rewrite !app_nil_r.
Qed.

Lemma attempt_body_calls (start_time : Q) (attempt : Z) (w : World) :
  calls_made (snd (attempt_body env text tier start_time attempt w))
  = S (calls_made w).
Proof.
  unfold attempt_body, _generate_with_retry, model_generate_content,
    try_except, bind, print, logger, emit, raise, ret, time_now.
  fold prompt. cbn [calls_made clock_reads events].
  destruct (generate_content env (calls_made w) prompt) as [r|e];
    [|reflexivity].
  destruct (response_payload r) as [t|]; [|reflexivity].
  cbn [calls_made clock_reads events]. rewrite guarded_truediv. reflexivity.
Qed.

(** A failed attempt does not read the clock. *)
Lemma attempt_body_clock (start_time : Q) (attempt : Z) (w : World) :
  attempt_fails (generate_content env (calls_made w) prompt) = true ->
  clock_reads (snd (attempt_body env text tier start_time attempt w))
  = clock_reads w.
Proof.
  unfold attempt_body, _generate_with_retry, model_generate_content,
    try_except, bind, print, logger, emit, raise, ret, time_now.
  fold prompt. cbn [calls_made clock_reads events].
  destruct (generate_content env (calls_made w) prompt) as [r|e];
    cbn [attempt_fails]; [|reflexivity].
  destruct (response_payload r) as [t|]; [discriminate|reflexivity].
Qed.

Lemma attempt_fails_payload (o : call_outcome) :
  attempt_fails o = true <-> attempt_payload o = None.
Proof.
  destruct o as [r|e]; simpl; [|tauto].
  destruct (response_payload r); split; congruence.
Qed.

(** Of the delays the loop asks for, the powers of two, those from
    [2^1024] on have no float. *)
Lemma float_overflows_pow2 (a : Z) :
  0 <= a -> (0 <? 2 ^ a) && float_overflows (2 ^ a) = (1024 <=? a).
Proof.
  intros Ha.
  replace (0 <? 2 ^ a) with true
    by (symmetry; apply Z.ltb_lt; apply Z.pow_pos_nonneg; lia).
  cbn [andb]. unfold float_overflows.
  rewrite Z.abs_eq by (apply Z.pow_nonneg; lia).
  assert (H970 : 2 ^ 970 < 2 ^ 1023) by (apply Z.pow_lt_mono_r; lia).
  assert (H1024 : 2 ^ 1024 = 2 ^ 1023 + 2 ^ 1023).
  { replace 1024 with (Z.succ 1023) by reflexivity.
    rewrite Z.pow_succ_r by lia. lia. }
  assert (Hpos : 0 < 2 ^ 970) by (apply Z.pow_pos_nonneg; lia).
  destruct (1024 <=? a) eqn:Hc.
  - apply Z.leb_le in Hc. apply Z.leb_le.
    assert (2 ^ 1024 <= 2 ^ a) by (apply Z.pow_le_mono_r; lia). lia.
  - apply Z.leb_gt in Hc. apply Z.leb_gt.
    assert (2 ^ a <= 2 ^ 1023) by (apply Z.pow_le_mono_r; lia). lia.
Qed.

Lemma attempts_from_step (max_retries : Z) (st : Q) (k : nat) (a : Z)
    (w : World) :
  attempts_from env text tier max_retries st (S k) a w =
  let run := attempt_body env text tier st a w in
  match fst run with
  | Ok r => (Ok r, snd run)
  | Err e =>
      let w1 := snd (logger warning "Summary generation attempt failed"
                            (snd run)) in
      if a =? max_retries - 1
      then (Err e,
            snd (logger error "All summary generation attempts failed" w1))
      else if (0 <? 2 ^ a) && float_overflows (2 ^ a)
           then (Err OverflowError, w1)
           else attempts_from env text tier max_retries st k (a + 1)
                              (snd (emit (EvSleep (2 ^ a)) w1))
  end.
Proof.
  cbn [attempts_from]. unfold try_except at 1.
  destruct (attempt_body env text tier st a w) as [[r|e] w1];
    cbn [fst snd]; [reflexivity|].
  unfold bind at 1. unfold logger at 1. unfold emit at 1. cbv zeta.
  destruct (a =? max_retries - 1); [reflexivity|].
  unfold bind at 1. unfold asyncio_sleep.
  destruct ((0 <? 2 ^ a) && float_overflows (2 ^ a)); reflexivity.
Qed.

(** The whole loop, from any iteration on: it stops at the first attempt
    that does not fail, or after the last one, or after attempt 1024 when
    there would be more. *)
Lemma attempts_from_run (max_retries : Z) (st : Q) :
  forall (k : nat) (a : Z) (w : World),
    max_retries = a + Z.of_nat k -> 0 <= a <= 1024 ->
    let out := fun i => generate_content env i prompt in
    let run := attempts_from env text tier max_retries st k a w in
    let n := Nat.min k (Z.to_nat (1025 - a)) in
    match first_success out (calls_made w) n with
    | Some j =>
        (exists t,
            attempt_payload (out (calls_made w + j)%nat) = Some t /\
            fst run = Ok (result_of text t (time_time env (clock_reads w)) st))
        /\ io_trace (snd run) = io_trace w ++ backoff_schedule prompt a j
        /\ calls_made (snd run) = (calls_made w + j + 1)%nat
    | None =>
        match n with
        | O => run = (Err (RuntimeError
                             "Failed to generate summary after all retries"), w)
        | S n' =>
            fst run = Err (if max_retries <=? 1025
                           then attempt_error (out (calls_made w + n')%nat)
                           else OverflowError)
            /\ io_trace (snd run) = io_trace w ++ backoff_schedule prompt a n'
            /\ calls_made (snd run) = (calls_made w + n)%nat
        end
    end.
Proof.
  induction k as [|k IH]; intros a w Hmax Ha out run n; [reflexivity|].
  subst run n. rewrite attempts_from_step. cbv zeta.
  pose proof (attempt_body_result st a w) as Hres.
  pose proof (attempt_body_io st a w) as Hio.
  pose proof (attempt_body_calls st a w) as Hcalls.
  pose proof (attempt_body_clock st a w) as Hclock.
  cbv zeta in Hres. fold (out (calls_made w)) in Hres, Hclock.
  replace (Z.to_nat (1025 - a)) with (S (Z.to_nat (1024 - a))) by lia.
  cbn [Nat.min first_success].
  destruct (attempt_fails (out (calls_made w))) eqn:Hfail.
  - (* the attempt fails *)
    apply attempt_fails_payload in Hfail as Hpay.
    rewrite Hpay in Hres. rewrite Hres.
    specialize (Hclock eq_refl).
    destruct k as [|k'].
    + (* it was the last one *)
      replace (a =? max_retries - 1) with true
        by (symmetry; apply Z.eqb_eq; lia).
      replace (max_retries <=? 1025) with true
        by (symmetry; apply Z.leb_le; lia).
      cbn [Nat.min first_success option_map fst snd].
      unfold logger. rewrite !io_trace_emit. cbn [filter is_io].
      rewrite !app_nil_r, Hio. cbn [calls_made snd emit].
      rewrite Hcalls, Nat.add_0_r. repeat split; try reflexivity; lia.
    + replace (a =? max_retries - 1) with false
        by (symmetry; apply Z.eqb_neq; lia).
      rewrite float_overflows_pow2 by lia.
      destruct (1024 <=? a) eqn:Hover.
      * (* the delay after attempt 1024 cannot be slept *)
        apply Z.leb_le in Hover.
        replace (Z.to_nat (1024 - a)) with 0%nat by lia.
        replace (max_retries <=? 1025) with false
          by (symmetry; apply Z.leb_gt; lia).
        cbn [Nat.min first_success option_map fst snd].
        unfold logger. rewrite !io_trace_emit. cbn [filter is_io].
        rewrite !app_nil_r, Hio. cbn [calls_made snd emit].
        rewrite Hcalls. repeat split; try reflexivity; lia.
      * apply Z.leb_gt in Hover.
        set (w2 := snd (emit (EvSleep (2 ^ a))
                     (snd (logger warning "Summary generation attempt failed"
                        (snd (attempt_body env text tier st a w)))))).
        assert (Hc2 : calls_made w2 = S (calls_made w)) by exact Hcalls.
        assert (Hk2 : clock_reads w2 = clock_reads w) by exact Hclock.
        assert (Hi2 : io_trace w2
                      = io_trace w ++ [EvCall prompt; EvSleep (2 ^ a)]).
        { unfold w2, logger. rewrite !io_trace_emit.
          cbn [filter is_io]. rewrite app_nil_r, Hio, <- app_assoc.
          reflexivity. }
        specialize (IH (a + 1) w2 ltac:(lia) ltac:(lia)). cbv zeta in IH.
        fold out in IH. rewrite Hc2, Hk2, Hi2 in IH.
        replace (Z.to_nat (1025 - (a + 1))) with (Z.to_nat (1024 - a)) in IH
          by lia.
        destruct (first_success out (S (calls_made w))
                    (Nat.min (S k') (Z.to_nat (1024 - a)))) as [j|];
          cbn [option_map].
        -- destruct IH as [[t [Ht Hr]] [Hi Hc]].
           split; [exists t; split; [|exact Hr]|split].
           ++ replace (calls_made w + S j)%nat
                with (S (calls_made w) + j)%nat by lia.
              exact Ht.
           ++ rewrite Hi, <- app_assoc. reflexivity.
           ++ rewrite Hc. lia.
        -- destruct (Nat.min (S k') (Z.to_nat (1024 - a))) as [|n'] eqn:Hn;
             [lia|].
           destruct IH as [Hr [Hi Hc]].
           split; [|split].
           ++ replace (calls_made w + S n')%nat
                with (S (calls_made w) + n')%nat by lia.
              exact Hr.
           ++ rewrite Hi, <- app_assoc. reflexivity.
           ++ rewrite Hc. lia.
  - (* the attempt succeeds *)
    destruct (attempt_payload (out (calls_made w))) as [t|] eqn:Hpay;
      [|apply attempt_fails_payload in Hpay; congruence].
    rewrite Hres. cbn [fst snd backoff_schedule].
    rewrite Hio, Hcalls, Nat.add_0_r.
    split; [exists t; split; [exact Hpay|reflexivity]|split];
      [reflexivity|lia].
Qed.

End RetryLoop.

(* ------------------------------------------------------------------ *)
(** ** Request validation *)
(* ------------------------------------------------------------------ *)

Lemma validate_text_ok (s : pystr) :
  10 <= len (split s) -> validate_text s = Ok (strip (re_sub_ws s)).
Proof.
  intros Hw. unfold validate_text.
  destruct (strip s) as [|c r] eqn:Hs.
  - apply strip_nil_split in Hs. rewrite Hs in Hw. cbn in Hw. lia.
  - rewrite split_normalize.
    destruct (len (split s) <? 10) eqn:Hlt; [|reflexivity].
    apply Z.ltb_lt in Hlt. lia.
Qed.

Lemma validate_text_inv (s v : pystr) :
  validate_text s = Ok v ->
  v = strip (re_sub_ws s) /\ 10 <= len (split v).
Proof.
  unfold validate_text. destruct (strip s); [discriminate|].
  destruct (len (split (strip (re_sub_ws s))) <? 10) eqn:Hlt; [discriminate|].
  intros H. injection H as <-. apply Z.ltb_ge in Hlt. now split.
Qed.

Lemma SummaryRequest_text_inv (raw v : pystr) :
  SummaryRequest_text raw = Ok v ->
  50 <= len raw <= 50000 /\ validate_text raw = Ok v.
Proof.
  unfold SummaryRequest_text.
  destruct (len raw <? 50) eqn:H1; [discriminate|].
  destruct (50000 <? len raw) eqn:H2; [discriminate|].
  apply Z.ltb_ge in H1, H2. intros H. split; [lia|exact H].
Qed.

Lemma SummaryRequest_text_ok (raw : pystr) :
  50 <= len raw <= 50000 -> 10 <= len (split raw) ->
  SummaryRequest_text raw = Ok (strip (re_sub_ws raw)).
Proof.
  intros [Hlo Hhi] Hw. unfold SummaryRequest_text.
  destruct (len raw <? 50) eqn:H1; [apply Z.ltb_lt in H1; lia|].
  destruct (50000 <? len raw) eqn:H2; [apply Z.ltb_lt in H2; lia|].
  now apply validate_text_ok.
Qed.

(** C5, as stated, fails: a text whose normalised form has 19 code points
    (fewer than 50) is accepted, because the bound is checked on the 50 code
    points received. *)
Lemma short_after_normalization_accepted :
  len (strip (re_sub_ws padded_ten_words)) = 19
  /\ SummaryRequest_text padded_ten_words = Ok (py "a b c d e f g h i j").
Proof. split; vm_compute; reflexivity. Qed.

(** The other direction of C5 fails as well: a text whose normalised form
    has 59 code points and 12 words is rejected, because it was received
    with more than 50000 code points. *)
Lemma in_range_after_normalization_rejected :
  len (strip (re_sub_ws long_padded)) = 59
  /\ len (split long_padded) = 12
  /\ SummaryRequest_text long_padded = Err string_too_long.
Proof. repeat split; vm_compute; reflexivity. Qed.

(** C5 (amended): the 50-50000 bound of request validation is enforced on
    the text as received, before whitespace normalisation.  Every input
    whose received length is outside [50, 50000] fails validation, and every
    input whose received length is within [50, 50000] and that has at least
    10 words passes it, the result being the normalised text. *)
Theorem text_bound_on_received_length (raw : pystr) :
  ((len raw < 50 \/ 50000 < len raw) ->
   exists e, SummaryRequest_text raw = Err e)
  /\ (50 <= len raw <= 50000 -> 10 <= len (split raw) ->
      SummaryRequest_text raw = Ok (strip (re_sub_ws raw))).
Proof.
  split.
  - intros H. unfold SummaryRequest_text.
    destruct (len raw <? 50) eqn:H1; [now exists string_too_short|].
    destruct (50000 <? len raw) eqn:H2; [now exists string_too_long|].
    apply Z.ltb_ge in H1, H2. lia.
  - apply SummaryRequest_text_ok.
Qed.

Lemma text_bound_on_received_length_witness :
  (exists e, SummaryRequest_text (py "too short") = Err e)
  /\ SummaryRequest_text padded_ten_words
     = Ok (strip (re_sub_ws padded_ten_words)).
Proof.
  split.
  - apply (proj1 (text_bound_on_received_length (py "too short"))).
    left. vm_compute. reflexivity.
  - apply (proj2 (text_bound_on_received_length padded_ten_words)).
    + vm_compute. split; discriminate.
    + vm_compute. discriminate.
Defined.

(** C6, as stated, fails: a 94 code point text of ten words passes
    validation, but the 49 code point text it is normalised to is rejected
    when validated again. *)
Lemma revalidation_rejects_normalized_text :
  len spaced_pangram = 94
  /\ 10 <= len (split spaced_pangram)
  /\ SummaryRequest_text spaced_pangram
     = Ok (py "the quick brown fox jumps over the lazy dog again")
  /\ SummaryRequest_text
       (py "the quick brown fox jumps over the lazy dog again")
     = Err string_too_short.
Proof.
  repeat split; try (vm_compute; reflexivity); vm_compute; discriminate.
Qed.

(** C6 (amended): for every input with received length in [50, 50000] and
    at least 10 words, validation succeeds and returns the normalised text
    [v]; the validator [validate_text] maps [v] to itself, and re-validating
    [v] as a request succeeds and returns [v] unchanged whenever [v] still
    has at least 50 code points. *)
Theorem validation_idempotent_on_long_results (s : pystr) :
  50 <= len s <= 50000 -> 10 <= len (split s) ->
  exists v,
    SummaryRequest_text s = Ok v
    /\ validate_text v = Ok v
    /\ (50 <= len v -> SummaryRequest_text v = Ok v).
Proof.
  intros Hlen Hw. exists (strip (re_sub_ws s)).
  assert (Hw' : 10 <= len (split (strip (re_sub_ws s))))
    by now rewrite split_normalize.
  split; [now apply SummaryRequest_text_ok|].
  split.
  - rewrite validate_text_ok by exact Hw'. now rewrite normalize_idempotent.
  - intros Hlo. pose proof (len_normalize s) as Hle.
    rewrite SummaryRequest_text_ok; [|lia|exact Hw'].
    now rewrite normalize_idempotent.
Qed.

Lemma validation_idempotent_on_long_results_witness :
  exists v,
    SummaryRequest_text (words 12) = Ok v
    /\ validate_text v = Ok v
    /\ (50 <= len v -> SummaryRequest_text v = Ok v).
Proof.
  apply (validation_idempotent_on_long_results (words 12)).
  - vm_compute. split; discriminate.
  - vm_compute. discriminate.
Defined.

(* ------------------------------------------------------------------ *)
(** ** The bounded retry executor *)
(* ------------------------------------------------------------------ *)

Lemma first_success_none (out : nat -> call_outcome) (k : nat) :
  forall c,
    (forall i, (i < k)%nat -> attempt_fails (out (c + i)%nat) = true) ->
    first_success out c k = None.
Proof.
  induction k as [|k IH]; intros c H; [reflexivity|].
  cbn [first_success].
  specialize (H 0%nat ltac:(lia)) as H0. rewrite Nat.add_0_r in H0.
  rewrite H0, IH; [reflexivity|].
  intros i Hi. replace (S c + i)%nat with (c + S i)%nat by lia.
  apply H. lia.
Qed.

Lemma first_success_none_inv (out : nat -> call_outcome) (k : nat) :
  forall c,
    first_success out c k = None ->
    forall i, (i < k)%nat -> attempt_fails (out (c + i)%nat) = true.
Proof.
  induction k as [|k IH]; intros c H i Hi; [lia|].
  cbn [first_success] in H.
  destruct (attempt_fails (out c)) eqn:Hc; [|discriminate].
  destruct (first_success out (S c) k) eqn:Hrec; [discriminate|].
  destruct i as [|i]; [now rewrite Nat.add_0_r|].
  replace (c + S i)%nat with (S c + i)%nat by lia.
  apply (IH _ Hrec). lia.
Qed.

Lemma first_success_some (out : nat -> call_outcome) (k : nat) :
  forall c j,
    first_success out c k = Some j ->
    (j < k)%nat
    /\ attempt_fails (out (c + j)%nat) = false
    /\ forall i, (i < j)%nat -> attempt_fails (out (c + i)%nat) = true.
Proof.
  induction k as [|k IH]; intros c j H; [discriminate|].
  cbn [first_success] in H.
  destruct (attempt_fails (out c)) eqn:Hc.
  - destruct (first_success out (S c) k) as [j'|] eqn:Hrec; [|discriminate].
    injection H as <-. destruct (IH _ _ Hrec) as [Hlt [Hj Hbefore]].
    split; [lia|]. split.
    + now replace (c + S j')%nat with (S c + j')%nat by lia.
    + intros [|i] Hi; [now rewrite Nat.add_0_r|].
      replace (c + S i)%nat with (S c + i)%nat by lia. apply Hbefore. lia.
  - injection H as <-. split; [lia|]. split; [now rewrite Nat.add_0_r|].
    intros i Hi. lia.
Qed.

Lemma first_success_ext (out1 out2 : nat -> call_outcome) (k : nat) :
  (forall i, attempt_fails (out1 i) = attempt_fails (out2 i)) ->
  forall c, first_success out1 c k = first_success out2 c k.
Proof.
  intros H. induction k as [|k IH]; intros c; [reflexivity|].
  cbn [first_success]. now rewrite H, IH.
Qed.

Lemma calls_in_io (tr : list event) : calls_in (filter is_io tr) = calls_in tr.
Proof.
  unfold calls_in.
  induction tr as [|e tr IH]; [reflexivity|].
  destruct e; cbn; now rewrite IH.
Qed.

Lemma sleeps_in_io (tr : list event) :
  sleeps_in (filter is_io tr) = sleeps_in tr.
Proof.
  unfold sleeps_in.
  induction tr as [|e tr IH]; [reflexivity|].
  destruct e; cbn; now rewrite IH.
Qed.

Lemma calls_in_backoff_schedule (p : pystr) (k : nat) :
  forall a, calls_in (backoff_schedule p a k) = repeat p (S k).
Proof.
  induction k as [|k IH]; intros a; [reflexivity|].
  cbn [backoff_schedule]. unfold calls_in in *. cbn [flat_map app].
  now rewrite IH.
Qed.

Lemma sleeps_in_backoff_schedule (p : pystr) (k : nat) :
  forall a,
    sleeps_in (backoff_schedule p a k)
    = map (fun i => 2 ^ (a + Z.of_nat i)) (seq 0 k).
Proof.
  induction k as [|k IH]; intros a; [reflexivity|].
  cbn [backoff_schedule]. unfold sleeps_in in *. cbn [flat_map app].
  rewrite IH. cbn [seq map]. rewrite Z.add_0_r. f_equal.
  rewrite <- seq_shift, map_map. apply map_ext. intros i.
  f_equal. lia.
Qed.

(** A schedule ends with a call: nothing is slept after the last attempt. *)
Lemma backoff_schedule_ends_with_call (p : pystr) (k : nat) :
  forall a, exists tr, backoff_schedule p a k = tr ++ [EvCall p].
Proof.
  induction k as [|k IH]; intros a; [now exists []|].
  destruct (IH (a + 1)) as [tr Htr].
  exists (EvCall p :: EvSleep (2 ^ a) :: tr).
  cbn [backoff_schedule]. now rewrite Htr.
Qed.

Lemma reachable_attempts_le (max_retries : Z) :
  (reachable_attempts max_retries <= Z.to_nat max_retries)%nat
  /\ Z.of_nat (reachable_attempts max_retries) <= 1025.
Proof. unfold reachable_attempts. lia. Qed.

Lemma reachable_attempts_small (max_retries : Z) :
  max_retries <= 1025 -> reachable_attempts max_retries = Z.to_nat max_retries.
Proof. unfold reachable_attempts. intros H. f_equal. lia. Qed.

Lemma reachable_attempts_large (max_retries : Z) :
  1025 <= max_retries -> reachable_attempts max_retries = Z.to_nat 1025.
Proof. unfold reachable_attempts. intros H. f_equal. lia. Qed.

(** [summarize_text] from any world: the clock is read once, then the loop
    runs [max_retries] iterations at most, and never beyond attempt 1024. *)
Lemma summarize_text_run (env : Env) (text tier : pystr) (max_retries : Z)
    (w : World) :
  let prompt := _get_summary_prompt text tier in
  let out := fun i => generate_content env i prompt in
  let run := summarize_text env text tier max_retries w in
  match first_success out (calls_made w) (reachable_attempts max_retries) with
  | Some j =>
      (exists t,
          attempt_payload (out (calls_made w + j)%nat) = Some t /\
          fst run = Ok (result_of text t (time_time env (S (clock_reads w)))
                                  (time_time env (clock_reads w))))
      /\ io_trace (snd run) = io_trace w ++ backoff_schedule prompt 0 j
      /\ calls_made (snd run) = (calls_made w + j + 1)%nat
  | None =>
      match reachable_attempts max_retries with
      | O => fst run = Err (RuntimeError
                              "Failed to generate summary after all retries")
             /\ io_trace (snd run) = io_trace w
             /\ calls_made (snd run) = calls_made w
      | S n' =>
          fst run = Err (if max_retries <=? 1025
                         then attempt_error (out (calls_made w + n')%nat)
                         else OverflowError)
          /\ io_trace (snd run) = io_trace w ++ backoff_schedule prompt 0 n'
          /\ calls_made (snd run) = (calls_made w + S n')%nat
      end
  end.
Proof.
  intros prompt out run.
  assert (Hrun : run
    = attempts_from env text tier max_retries (time_time env (clock_reads w))
        (Z.to_nat max_retries) 0 (snd (time_now env w))) by reflexivity.
  pose proof (attempts_from_run env text tier max_retries
                (time_time env (clock_reads w)) (Z.to_nat max_retries) 0
                (snd (time_now env w))) as H.
  cbv zeta in H. rewrite <- Hrun in H. fold prompt out in H.
  change (calls_made (snd (time_now env w))) with (calls_made w) in H.
  change (clock_reads (snd (time_now env w))) with (S (clock_reads w)) in H.
  change (io_trace (snd (time_now env w))) with (io_trace w) in H.
  replace (Nat.min (Z.to_nat max_retries) (Z.to_nat (1025 - 0)))
    with (reachable_attempts max_retries) in H
    by (unfold reachable_attempts; lia).
  destruct (Z.to_nat max_retries) as [|k'] eqn:Hk.
  - replace (reachable_attempts max_retries) with 0%nat
      by (unfold reachable_attempts; lia).
    cbn [first_success]. rewrite Hrun. cbn. repeat split.
  - specialize (H ltac:(lia) ltac:(lia)).
    destruct (first_success out (calls_made w)
                (reachable_attempts max_retries)); [exact H|].
    destruct (reachable_attempts max_retries) as [|n'] eqn:Hn.
    + unfold reachable_attempts in Hn. lia.
    + exact H.
Qed.

(** Every dictionary [summarize_text] returns was built from a payload. *)
Lemma summarize_text_ok_inv (env : Env) (text tier : pystr) (max_retries : Z)
    (w w' : World) (r : SummaryResult) :
  summarize_text env text tier max_retries w = (Ok r, w') ->
  exists t now start, r = result_of text t now start.
Proof.
  intros Hrun.
  pose proof (summarize_text_run env text tier max_retries w) as H.
  cbv zeta in H. rewrite Hrun in H. cbn [fst snd] in H.
  destruct (first_success _ _ _) as [j|].
  - destruct H as [[t [_ Hr]] _]. injection Hr as ->. now eauto.
  - destruct (reachable_attempts max_retries); destruct H as [Hr _];
      discriminate.
Qed.




(** C3: in every execution of the retry loop the remote calls and the
    sleeps alternate as call, sleep 1, call, sleep 2, call, sleep 4, ...:
    between failed attempt [i] (0-indexed) and attempt [i+1] the executor
    sleeps [2^i] seconds, and the trace ends with the call of the last
    attempt made: nothing is slept after it.  That last attempt is a
    successful one, or attempt [max_retries - 1], or attempt 1024, after
    which the delay [2^1024] raises OverflowError instead of being slept. *)
Theorem backoff_between_attempts (env : Env) (text tier : pystr)
    (max_retries : Z) :
  let prompt := _get_summary_prompt text tier in
  let run := summarize_text env text tier max_retries initial_world in
  let w' := snd run in
  (max_retries <= 0 -> io_trace w' = [])
  /\ (0 < max_retries ->
      exists j : nat,
        Z.of_nat j < max_retries
        /\ io_trace w' = backoff_schedule prompt 0 j
        /\ sleeps_in (events w') = map (fun i => 2 ^ Z.of_nat i) (seq 0 j)
        /\ calls_made w' = S j
        /\ (forall i, (i < j)%nat ->
              attempt_fails (generate_content env i prompt) = true)
        /\ (attempt_fails (generate_content env j prompt) = false
            \/ Z.of_nat j = max_retries - 1
            \/ (Z.of_nat j = 1024
                /\ attempt_fails (generate_content env j prompt) = true
                /\ fst run = Err OverflowError))).
Proof.
  intros prompt run w'.
  pose proof (summarize_text_run env text tier max_retries initial_world)
    as H.
  cbv zeta in H. fold prompt in H. fold run in H. fold w' in H.
  change (io_trace initial_world) with (@nil event) in H.
  cbn [calls_made initial_world app Nat.add] in H.
  assert (Hsl : forall j, io_trace w' = backoff_schedule prompt 0 j ->
            sleeps_in (events w') = map (fun i => 2 ^ Z.of_nat i) (seq 0 j)).
  { intros j Hio. rewrite <- sleeps_in_io. fold (io_trace w').
    rewrite Hio, sleeps_in_backoff_schedule. reflexivity. }
  pose proof (reachable_attempts_le max_retries) as [Hle _].
  split.
  - intros Hneg.
    replace (reachable_attempts max_retries) with 0%nat in H
      by (unfold reachable_attempts; lia).
    cbn [first_success] in H. tauto.
  - intros Hpos.
    destruct (first_success _ 0%nat (reachable_attempts max_retries))
      as [j|] eqn:Hfs.
    + apply first_success_some in Hfs as [Hlt [Hj Hbefore]].
      destruct H as [_ [Hio Hc]].
      exists j. repeat split; [lia|exact Hio|now apply Hsl|lia|exact Hbefore|].
      now left.
    + pose proof (first_success_none_inv _ _ 0%nat Hfs) as Hall.
      destruct (reachable_attempts max_retries) as [|n'] eqn:Hn;
        [unfold reachable_attempts in Hn; lia|].
      destruct H as [Hr [Hio Hc]].
      exists n'. repeat split; [lia|exact Hio|now apply Hsl|lia| |].
      * intros i Hi. apply (Hall i). lia.
      * right. unfold reachable_attempts in Hn.
        destruct (max_retries <=? 1025) eqn:Hsmall.
        -- apply Z.leb_le in Hsmall. left. lia.
        -- apply Z.leb_gt in Hsmall. right.
           split; [lia|]. split; [apply (Hall n'); lia|exact Hr].
Qed.

Lemma backoff_between_attempts_witness :
  let env := env_of (fun k => match k with
                              | 0%nat => Raises (OtherException "ServiceUnavailable" "503")
                              | 1%nat => empty_text_response
                              | _ => text_response (words 3)
                              end) in
  let run := summarize_text env (words 12) (py "short") 3 initial_world in
  let w' := snd run in
  io_trace (snd (summarize_text env (words 12) (py "short") 0 initial_world))
  = []
  /\ exists j : nat,
       Z.of_nat j < 3
       /\ io_trace w'
          = backoff_schedule (_get_summary_prompt (words 12) (py "short")) 0 j
       /\ sleeps_in (events w') = map (fun i => 2 ^ Z.of_nat i) (seq 0 j)
       /\ calls_made w' = S j
       /\ (forall i, (i < j)%nat ->
             attempt_fails
               (generate_content env i
                  (_get_summary_prompt (words 12) (py "short"))) = true)
       /\ (attempt_fails
             (generate_content env j
                (_get_summary_prompt (words 12) (py "short"))) = false
           \/ Z.of_nat j = 3 - 1
           \/ (Z.of_nat j = 1024
               /\ attempt_fails
                    (generate_content env j
                       (_get_summary_prompt (words 12) (py "short"))) = true
               /\ fst run = Err OverflowError)).
Proof.
  intros env run w'. split.
  - apply (proj1 (backoff_between_attempts env (words 12) (py "short") 0)).
    lia.
  - apply (proj2 (backoff_between_attempts env (words 12) (py "short") 3)).
    lia.
Defined.

(** The stop after attempt 1024, run through the code: 1025 calls, the
    delays [2^0 .. 2^1023] between them, and no sleep after the last. *)
Example backoff_stops_after_attempt_1024 :
  let env := env_of (fun _ => missing_response) in
  let run := summarize_text env (words 12) (py "short") 2000 initial_world in
  fst run = Err OverflowError
  /\ io_trace (snd run)
     = backoff_schedule (_get_summary_prompt (words 12) (py "short")) 0 1024.
Proof.
  intros env run.
  pose proof (summarize_text_run env (words 12) (py "short") 2000
                initial_world) as H.
  cbv zeta in H. fold run in H.
  change (reachable_attempts 2000) with 1025%nat in H.
  rewrite (first_success_none _ _ 0%nat) in H by (intros i _; reflexivity).
  destruct H as [Hr [Hio _]].
  change (2000 <=? 1025) with false in Hr. cbv iota in Hr.
  split; [exact Hr|exact Hio].
Qed.

Example backoff_one_then_two :
  sleeps_in (events (snd (summarize_text
     (env_of (fun k => match k with
                       | 0%nat => Raises (OtherException "ServiceUnavailable" "503")
                       | 1%nat => empty_text_response
                       | _ => text_response (words 3)
                       end))
     (words 12) (py "short") 3 initial_world))) = [1; 2].
Proof. vm_compute. reflexivity. Qed.

(** Two behaviours of the remote call that fail at the same attempts,
    whichever way each failure comes about, and return the same payloads
    otherwise, lead to the same calls and sleeps in the same order, to the
    same number of attempts consumed, and to the same kind of outcome. *)
Lemma same_failures_same_run (env1 env2 : Env)
    (text tier : pystr) (max_retries : Z) :
  let prompt := _get_summary_prompt text tier in
  (forall k, time_time env1 k = time_time env2 k) ->
  (forall i, attempt_payload (generate_content env1 i prompt)
             = attempt_payload (generate_content env2 i prompt)) ->
  let run1 := summarize_text env1 text tier max_retries initial_world in
  let run2 := summarize_text env2 text tier max_retries initial_world in
  io_trace (snd run1) = io_trace (snd run2)
  /\ calls_made (snd run1) = calls_made (snd run2)
  /\ match fst run1, fst run2 with
     | Ok r1, Ok r2 => r1 = r2
     | Err _, Err _ => True
     | _, _ => False
     end.
Proof.
  intros prompt Hclock Hpay run1 run2.
  pose proof (summarize_text_run env1 text tier max_retries initial_world)
    as H1.
  pose proof (summarize_text_run env2 text tier max_retries initial_world)
    as H2.
  cbv zeta in H1, H2. fold prompt run1 in H1. fold prompt run2 in H2.
  assert (Hfs : first_success (fun i => generate_content env1 i prompt)
                  (calls_made initial_world) (reachable_attempts max_retries)
                = first_success (fun i => generate_content env2 i prompt)
                    (calls_made initial_world)
                    (reachable_attempts max_retries)).
  { apply first_success_ext. intros i. specialize (Hpay i).
    destruct (attempt_fails (generate_content env1 i prompt)) eqn:F1;
      destruct (attempt_fails (generate_content env2 i prompt)) eqn:F2;
      try reflexivity.
    - apply attempt_fails_payload in F1. rewrite F1 in Hpay.
      symmetry in Hpay. apply attempt_fails_payload in Hpay. congruence.
    - apply attempt_fails_payload in F2. rewrite F2 in Hpay.
      apply attempt_fails_payload in Hpay. congruence. }
  rewrite Hfs in H1.
  destruct (first_success _ _ _) as [j|].
  - destruct H1 as [[t1 [Ht1 Hr1]] [Hio1 Hc1]].
    destruct H2 as [[t2 [Ht2 Hr2]] [Hio2 Hc2]].
    rewrite Hio1, Hio2, Hc1, Hc2, Hr1, Hr2.
    repeat split. rewrite Hpay, Ht2 in Ht1. injection Ht1 as <-.
    now rewrite !Hclock.
  - destruct (reachable_attempts max_retries);
      destruct H1 as [Hr1 [Hio1 Hc1]]; destruct H2 as [Hr2 [Hio2 Hc2]];
      rewrite Hio1, Hio2, Hc1, Hc2, Hr1, Hr2; repeat split.
Qed.

(** A schedule that goes beyond its [i]-th call continues with the delay
    [2^i] and the next call. *)
Lemma backoff_schedule_continues (p : pystr) (d : nat) :
  forall (i : nat) (a : Z),
    exists rest,
      backoff_schedule p a (i + S d)
      = backoff_schedule p a i
        ++ EvSleep (2 ^ (a + Z.of_nat i)) :: EvCall p :: rest.
Proof.
  induction i as [|i IH]; intros a.
  - cbn [Nat.add backoff_schedule app]. rewrite Z.add_0_r.
    destruct d as [|d]; cbn [backoff_schedule]; eauto.
  - destruct (IH (a + 1)) as [rest Hrest].
    exists rest. cbn [Nat.add backoff_schedule app]. rewrite Hrest.
    replace (a + 1 + Z.of_nat i) with (a + Z.of_nat (S i)) by lia.
    reflexivity.
Qed.

(** C4: an attempt whose call returns no response object or an empty text
    is handled by the retry loop exactly as one whose call raises.  When
    attempt [i] is reached and its call returns without a payload, the
    attempt is counted against the budget; if it is the last one, the run
    ends there with the ValueError "Empty response from Gemini API"; if it
    is not, the delay [2^i] is slept and the call of attempt [i+1] follows
    (or, for attempt 1024, the delay raises OverflowError).  The run in
    which that call raises an exception [e] instead makes the same calls
    and sleeps in the same order, consumes the same number of attempts and
    has the same kind of outcome; as the last attempt it ends with [e]. *)
Theorem empty_payload_retried_like_raise (env : Env) (text tier : pystr)
    (max_retries : Z) (i : nat) (r : option GenerateContentResponse)
    (e : exn) :
  let prompt := _get_summary_prompt text tier in
  (forall k, (k < i)%nat ->
     attempt_fails (generate_content env k prompt) = true) ->
  generate_content env i prompt = Returns r ->
  response_payload r = None ->
  Z.of_nat i < max_retries -> (i <= 1024)%nat ->
  let run := summarize_text env text tier max_retries initial_world in
  let run' := summarize_text (with_outcome env i (Raises e)) text tier
                             max_retries initial_world in
  (S i <= calls_made (snd run))%nat
  /\ io_trace (snd run) = io_trace (snd run')
  /\ calls_made (snd run) = calls_made (snd run')
  /\ match fst run, fst run' with
     | Ok r1, Ok r2 => r1 = r2
     | Err _, Err _ => True
     | _, _ => False
     end
  /\ (Z.of_nat i = max_retries - 1 ->
      fst run = Err (ValueError "Empty response from Gemini API")
      /\ fst run' = Err e
      /\ io_trace (snd run) = backoff_schedule prompt 0 i
      /\ calls_made (snd run) = S i)
  /\ (Z.of_nat i < max_retries - 1 -> (i < 1024)%nat ->
      (S (S i) <= calls_made (snd run))%nat
      /\ exists rest,
           io_trace (snd run)
           = backoff_schedule prompt 0 i
             ++ EvSleep (2 ^ Z.of_nat i) :: EvCall prompt :: rest)
  /\ (Z.of_nat i < max_retries - 1 -> i = 1024%nat ->
      fst run = Err OverflowError
      /\ fst run' = Err OverflowError
      /\ io_trace (snd run) = backoff_schedule prompt 0 i
      /\ calls_made (snd run) = S i).
Proof.
  intros prompt Hbefore Hout Hpay Hbudget Hreach run run'.
  set (env' := with_outcome env i (Raises e)) in *.
  set (out := fun k => generate_content env k prompt).
  set (out' := fun k => generate_content env' k prompt).
  assert (Hout' : forall k, out' k = if Nat.eqb k i then Raises e else out k)
    by reflexivity.
  assert (Hi : attempt_fails (out i) = true /\ attempt_payload (out i) = None
               /\ attempt_error (out i)
                  = ValueError "Empty response from Gemini API").
  { unfold out. rewrite Hout. cbn. now rewrite Hpay. }
  destruct Hi as [Hfi [Hpi Hei]].
  assert (Hi' : attempt_error (out' i) = e)
    by (rewrite Hout', Nat.eqb_refl; reflexivity).
  assert (Hsame : forall k, attempt_payload (out k) = attempt_payload (out' k)).
  { intros k. rewrite Hout'. destruct (Nat.eqb k i) eqn:Hk; [|reflexivity].
    apply Nat.eqb_eq in Hk. subst k. exact Hpi. }
  assert (Hfails : forall k, (k <= i)%nat -> attempt_fails (out k) = true).
  { intros k Hk. destruct (Nat.eq_dec k i) as [->|Hne]; [exact Hfi|].
    apply Hbefore. lia. }
  destruct (same_failures_same_run env env' text tier max_retries
              ltac:(reflexivity) Hsame) as [Eio [Ecalls Ekind]].
  fold run run' in Eio, Ecalls, Ekind.
  pose proof (summarize_text_run env text tier max_retries initial_world)
    as H.
  pose proof (summarize_text_run env' text tier max_retries initial_world)
    as H'.
  cbv zeta in H, H'. fold prompt in H, H'. fold run out in H.
  fold run' out' in H'.
  change (io_trace initial_world) with (@nil event) in H, H'.
  cbn [calls_made initial_world app Nat.add] in H, H'.
  assert (Hfs : first_success out' 0 (reachable_attempts max_retries)
                = first_success out 0 (reachable_attempts max_retries)).
  { apply first_success_ext. intros k. specialize (Hsame k).
    destruct (attempt_fails (out' k)) eqn:F1;
      destruct (attempt_fails (out k)) eqn:F2; try reflexivity.
    - apply attempt_fails_payload in F1. rewrite F1 in Hsame.
      apply attempt_fails_payload in Hsame. congruence.
    - apply attempt_fails_payload in F2. rewrite F2 in Hsame.
      symmetry in Hsame. apply attempt_fails_payload in Hsame. congruence. }
  rewrite Hfs in H'.
  assert (HN : (i < reachable_attempts max_retries)%nat)
    by (unfold reachable_attempts; lia).
  destruct (first_success out 0 (reachable_attempts max_retries))
    as [j|] eqn:Hj.
  - (* a later attempt succeeds *)
    apply first_success_some in Hj as [Hlt [Hok Hprev]].
    cbn [Nat.add] in Hok.
    assert (Hij : (i < j)%nat).
    { destruct (Nat.le_gt_cases j i) as [Hle|Hgt]; [|exact Hgt].
      rewrite (Hfails j Hle) in Hok. discriminate. }
    destruct H as [_ [Hio Hc]].
    unfold reachable_attempts in Hlt.
    split; [lia|]. split; [exact Eio|]. split; [exact Ecalls|].
    split; [exact Ekind|]. split; [intros Hlast; lia|].
    split; [|intros Hnot H1024; lia].
    intros Hnot Hlow. split; [lia|].
    destruct (backoff_schedule_continues prompt (j - i - 1) i 0)
      as [rest Hrest].
    replace (i + S (j - i - 1))%nat with j in Hrest by lia.
    exists rest. rewrite Hio, Hrest. reflexivity.
  - (* every attempt within reach fails *)
    destruct (reachable_attempts max_retries) as [|n'] eqn:Hn; [lia|].
    destruct H as [Hr [Hio Hc]]. destruct H' as [Hr' _].
    unfold reachable_attempts in Hn.
    split; [lia|]. split; [exact Eio|]. split; [exact Ecalls|].
    split; [exact Ekind|]. split; [|split].
    + intros Hlast. assert (n' = i) by lia. subst n'.
      replace (max_retries <=? 1025) with true in Hr, Hr'
        by (symmetry; apply Z.leb_le; lia).
      rewrite Hei in Hr. rewrite Hi' in Hr'.
      repeat split; [exact Hr|exact Hr'|exact Hio|lia].
    + intros Hnot Hlow. split; [lia|].
      destruct (backoff_schedule_continues prompt (n' - i - 1) i 0)
        as [rest Hrest].
      replace (i + S (n' - i - 1))%nat with n' in Hrest by lia.
      exists rest. rewrite Hio, Hrest. reflexivity.
    + intros Hnot H1024. assert (n' = i) by lia. subst n'.
      replace (max_retries <=? 1025) with false in Hr, Hr'
        by (symmetry; apply Z.leb_gt; lia).
      repeat split; [exact Hr|exact Hr'|exact Hio|lia].
Qed.

Lemma empty_payload_retried_like_raise_witness :
  let env := env_of (fun k => match k with
                              | 0%nat => Raises (OtherException "ServiceUnavailable" "503")
                              | 1%nat => empty_text_response
                              | _ => text_response (words 3)
                              end) in
  let e := ValueError "blocked" in
  let prompt := _get_summary_prompt (words 12) (py "long") in
  let run := summarize_text env (words 12) (py "long") 3 initial_world in
  let run' := summarize_text (with_outcome env 1 (Raises e)) (words 12)
                             (py "long") 3 initial_world in
  (2 <= calls_made (snd run))%nat
  /\ io_trace (snd run) = io_trace (snd run')
  /\ calls_made (snd run) = calls_made (snd run')
  /\ match fst run, fst run' with
     | Ok r1, Ok r2 => r1 = r2
     | Err _, Err _ => True
     | _, _ => False
     end
  /\ (Z.of_nat 1 = 3 - 1 ->
      fst run = Err (ValueError "Empty response from Gemini API")
      /\ fst run' = Err e
      /\ io_trace (snd run) = backoff_schedule prompt 0 1
      /\ calls_made (snd run) = 2%nat)
  /\ (Z.of_nat 1 < 3 - 1 -> (1 < 1024)%nat ->
      (3 <= calls_made (snd run))%nat
      /\ exists rest,
           io_trace (snd run)
           = backoff_schedule prompt 0 1
             ++ EvSleep (2 ^ Z.of_nat 1) :: EvCall prompt :: rest)
  /\ (Z.of_nat 1 < 3 - 1 -> 1%nat = 1024%nat ->
      fst run = Err OverflowError
      /\ fst run' = Err OverflowError
      /\ io_trace (snd run) = backoff_schedule prompt 0 1
      /\ calls_made (snd run) = 2%nat).
Proof.
  intros env e prompt.
  apply (empty_payload_retried_like_raise env (words 12) (py "long") 3 1
           (Some {| response_text := Some [] |}) e).
  - intros [|k] Hk; [reflexivity|lia].
  - reflexivity.
  - reflexivity.
  - lia.
  - lia.
Defined.

(** The two ways of an empty response, run through the code: the second
    attempt returns an empty text, one second was slept before it and two
    seconds are slept after it, and the third attempt is made. *)
Example empty_text_then_success :
  let env := env_of (fun k => match k with
                              | 0%nat => missing_response
                              | 1%nat => empty_text_response
                              | _ => text_response (words 3)
                              end) in
  let run := summarize_text env (words 12) (py "long") 3 initial_world in
  let prompt := _get_summary_prompt (words 12) (py "long") in
  io_trace (snd run)
  = [EvCall prompt; EvSleep 1; EvCall prompt; EvSleep 2; EvCall prompt]
  /\ calls_made (snd run) = 3%nat.
Proof. vm_compute. split; reflexivity. Qed.

(* ------------------------------------------------------------------ *)
(** ** The result metrics *)
(* ------------------------------------------------------------------ *)

Lemma spec_compression_ratio_pos (s o : Z) :
  0 < o -> (spec_compression_ratio s o == inject_Z s / inject_Z o)%Q.
Proof.
  intros Ho. unfold spec_compression_ratio.
  replace (0 <? o) with true by (symmetry; now apply Z.ltb_lt).
  apply Qred_correct.
Qed.

Lemma result_of_metrics (text t : pystr) (now start : Q) :
  let r := result_of text t now start in
  original_length r = len (split text)
  /\ summary_length r = len (split (summary r))
  /\ compression_ratio r
     = spec_compression_ratio (summary_length r) (original_length r).
Proof. repeat split. Qed.

(** C8: every result [summarize_text] returns is built from the payload
    [t] of the first attempt that does not fail: its summary is [t]
    stripped, its two counts are the numbers of whitespace-delimited tokens
    of the original text and of that summary, and its compression ratio is
    summary words / original words when the original has a word and 0 when
    it has none; for an original of 100 words and a generated summary of 20
    words it is 1/5, that is 0.2.  Such a result is returned, and no
    exception raised, whenever an attempt within reach succeeds, whatever
    the word count of the original, zero included. *)
Theorem compression_ratio_of_result (env : Env) (text tier : pystr)
    (max_retries : Z) :
  let out := fun i => generate_content env i (_get_summary_prompt text tier) in
  let run := summarize_text env text tier max_retries initial_world in
  (forall r w', run = (Ok r, w') ->
     exists j t,
       first_success out 0 (reachable_attempts max_retries) = Some j
       /\ attempt_payload (out j) = Some t
       /\ summary r = strip t
       /\ original_length r = len (split text)
       /\ summary_length r = len (split (strip t))
       /\ compression_ratio r
          = spec_compression_ratio (len (split (strip t))) (len (split text))
       /\ (0 < len (split text) ->
           (compression_ratio r
            == inject_Z (len (split (strip t))) / inject_Z (len (split text)))%Q)
       /\ (len (split text) = 0 -> compression_ratio r = 0%Q)
       /\ (len (split text) = 100 -> len (split (strip t)) = 20 ->
           compression_ratio r = (1 # 5)%Q /\ (compression_ratio r == 0.2)%Q))
  /\ (forall j,
        first_success out 0 (reachable_attempts max_retries) = Some j ->
        exists r w', run = (Ok r, w')).
Proof.
  intros out run.
  pose proof (summarize_text_run env text tier max_retries initial_world)
    as H.
  cbv zeta in H. fold out run in H.
  cbn [calls_made clock_reads initial_world Nat.add] in H.
  split.
  - intros r w' Hrun. rewrite Hrun in H. cbn [fst snd] in H.
    destruct (first_success out 0 (reachable_attempts max_retries))
      as [j|].
    + destruct H as [[t [Ht Hr]] _]. injection Hr as ->.
      exists j, t. split; [reflexivity|]. split; [exact Ht|].
      cbn [summary original_length summary_length compression_ratio
           result_of].
      repeat split.
      * intros Hpos. now apply spec_compression_ratio_pos.
      * intros Hz. rewrite Hz. reflexivity.
      * rewrite H, H0. reflexivity.
      * rewrite H, H0. reflexivity.
    + destruct (reachable_attempts max_retries); destruct H as [Hr _];
        discriminate.
  - intros j Hj. rewrite Hj in H. destruct H as [[t [_ Hr]] _].
    destruct run as [res w']. cbn [fst] in Hr. subst res. eauto.
Qed.

Lemma compression_ratio_of_result_witness :
  let env := env_of (fun k => match k with
                              | 0%nat => empty_text_response
                              | _ => text_response (words 20)
                              end) in
  exists r w',
    summarize_text env (words 100) (py "short") 3 initial_world = (Ok r, w')
    /\ summary r = strip (words 20)
    /\ original_length r = 100
    /\ summary_length r = 20
    /\ compression_ratio r = (1 # 5)%Q.
Proof.
  intros env.
  destruct (compression_ratio_of_result env (words 100) (py "short") 3)
    as [Hresult Hreturns].
  destruct (Hreturns 1%nat eq_refl) as [r [w' Hrun]].
  exists r, w'. split; [exact Hrun|].
  destruct (Hresult r w' Hrun)
    as [j [t [Hj [Ht [Hs [Ho [Hl [_ [_ [_ H100]]]]]]]]]].
  assert (Ej : j = 1%nat).
  { assert (E : Some 1%nat = Some j) by exact Hj. now injection E. }
  subst j.
  assert (Et : t = words 20).
  { assert (E : Some (words 20) = Some t) by exact Ht. now injection E. }
  subst t.
  split; [exact Hs|]. split; [exact Ho|]. split; [exact Hl|].
  apply H100; reflexivity.
Defined.

(** The two instances the specification names, run through the code. *)
Example ratio_100_words_20_words :
  let r := fst (summarize_text (env_of (fun _ => text_response (words 20)))
                               (words 100) (py "medium") 3 initial_world) in
  r = Ok {| summary := strip (words 20);
            original_length := 100;
            summary_length := 20;
            compression_ratio := (1 # 5)%Q;
            processing_time := 1%Q |}.
Proof. vm_compute. reflexivity. Qed.

Example ratio_of_empty_original :
  let r := fst (summarize_text (env_of (fun _ => text_response (words 20)))
                               [] (py "medium") 3 initial_world) in
  r = Ok {| summary := strip (words 20);
            original_length := 0;
            summary_length := 20;
            compression_ratio := 0%Q;
            processing_time := 1%Q |}.
Proof. vm_compute. reflexivity. Qed.

(** C10: for every request text that passes validation, the original word
    count computed for the result is at least 10, hence positive, and the
    compression ratio of every result returned for it is the quotient
    summary_length / original_length: the zero branch is not taken. *)
Theorem validated_text_ratio_is_quotient (env : Env) (raw v tier : pystr)
    (max_retries : Z) (w w' : World) (r : SummaryResult) :
  SummaryRequest_text raw = Ok v ->
  summarize_text env v tier max_retries w = (Ok r, w') ->
  original_length r = len (split v)
  /\ 10 <= original_length r
  /\ (0 <? original_length r) = true
  /\ compression_ratio r
     = Qred (inject_Z (summary_length r) / inject_Z (original_length r))
  /\ (compression_ratio r
      == inject_Z (summary_length r) / inject_Z (original_length r))%Q.
Proof.
  intros Hval Hrun.
  apply SummaryRequest_text_inv in Hval as [_ Hval].
  apply validate_text_inv in Hval as [_ Hwords].
  apply summarize_text_ok_inv in Hrun as [t [now [start ->]]].
  cbn [original_length summary_length compression_ratio result_of].
  assert (Hpos : (0 <? len (split v)) = true) by (apply Z.ltb_lt; lia).
  repeat split; try assumption.
  - unfold spec_compression_ratio. now rewrite Hpos.
  - apply spec_compression_ratio_pos. lia.
Qed.

Lemma validated_text_ratio_is_quotient_witness :
  let r := {| summary := py "word word word";
              original_length := 12;
              summary_length := 3;
              compression_ratio := (1 # 4)%Q;
              processing_time := 1%Q |} in
  original_length r = len (split (strip (re_sub_ws (words 12))))
  /\ 10 <= original_length r
  /\ (0 <? original_length r) = true
  /\ compression_ratio r
     = Qred (inject_Z (summary_length r) / inject_Z (original_length r))
  /\ (compression_ratio r
      == inject_Z (summary_length r) / inject_Z (original_length r))%Q.
Proof.
  intros r.
  apply (validated_text_ratio_is_quotient
           (env_of (fun _ => text_response (words 3)))
           (words 12) (strip (re_sub_ws (words 12))) (py "short") 3
           initial_world
           (snd (summarize_text (env_of (fun _ => text_response (words 3)))
                                (strip (re_sub_ws (words 12))) (py "short") 3
                                initial_world))
           r).
  - vm_compute. reflexivity.
  - vm_compute. reflexivity.
Defined.

(* ------------------------------------------------------------------ *)
(** ** Telemetry and the endpoint *)
(* ------------------------------------------------------------------ *)

Lemma track_summarization_result (env : Env) (self : LangSmithService)
    (text tier : pystr) (result : SummaryResult) (w : World) :
  fst (track_summarization env self text tier result w) = Ok result.
Proof.
  unfold track_summarization, _log_metrics, run_side_effect, try_except,
    bind, print, logger, emit, raise, ret.
  destruct (enabled self); cbn [negb fst snd]; [|reflexivity].
  destruct (client self) as [c|];
    [destruct (log_metrics_body env _) as [e1|]|];
    destruct (tracked_log env _) as [e2|]; reflexivity.
Qed.

Lemma track_summarization_io (env : Env) (self : LangSmithService)
    (text tier : pystr) (result : SummaryResult) (w : World) :
  io_trace (snd (track_summarization env self text tier result w))
  = io_trace w.
Proof.
  unfold track_summarization, _log_metrics, run_side_effect, try_except,
    bind, print, logger, emit, raise, ret, io_trace.
  destruct (enabled self); cbn [negb fst snd events].
  - destruct (client self) as [c|];
      [destruct (log_metrics_body env _) as [e1|]|];
      destruct (tracked_log env _) as [e2|];
      cbn [fst snd events]; rewrite !filter_app; cbn;
      now rewrite !app_nil_r.
  - rewrite !filter_app. cbn. now rewrite !app_nil_r.
Qed.

(** The endpoint on a successful summarisation. *)
Lemma summarize_article_ok (env : Env) (svc : LangSmithService)
    (req : SummaryRequest) (w w1 : World) (r : SummaryResult) :
  summarize_text env (req_text req) (req_summary_length req) 3
    (snd (logger info "Summarization request received" w)) = (Ok r, w1) ->
  fst (summarize_article env svc req w) = Ok r.
Proof.
  intros Hrun. unfold summarize_article, summarize_article_body.
  unfold bind at 1. cbn [logger emit]. unfold bind at 1.
  change (snd (logger info "Summarization request received" w))
    with {| events := events w ++ [EvLog info "Summarization request received"];
            calls_made := calls_made w;
            clock_reads := clock_reads w |} in Hrun.
  rewrite Hrun. unfold bind at 1.
  pose proof (track_summarization_result env svc (req_text req)
                (req_summary_length req) r w1) as Htrack.
  destruct (track_summarization env svc (req_text req)
              (req_summary_length req) r w1) as [res w2].
  cbn [fst] in Htrack. subst res. reflexivity.
Qed.

(** C9: telemetry never affects the primary response.  Whatever the
    telemetry operations do, raising included, [track_summarization]
    returns the result it was given, unchanged, and performs no remote call
    or sleep; hence whenever the summarisation itself succeeds with [r], the
    endpoint answers with [r]. *)
Theorem telemetry_failure_never_propagates (env : Env)
    (svc : LangSmithService) :
  (forall text tier result w,
      fst (track_summarization env svc text tier result w) = Ok result
      /\ io_trace (snd (track_summarization env svc text tier result w))
         = io_trace w)
  /\ (forall req w w1 r,
        summarize_text env (req_text req) (req_summary_length req) 3
          (snd (logger info "Summarization request received" w)) = (Ok r, w1) ->
        fst (summarize_article env svc req w) = Ok r).
Proof.
  split.
  - intros text tier result w. split.
    + apply track_summarization_result.
    + apply track_summarization_io.
  - intros req w w1 r. apply summarize_article_ok.
Qed.

Lemma telemetry_failure_never_propagates_witness :
  let env := env_failing_telemetry (fun _ => text_response (words 3)) in
  let r := {| summary := py "word word word";
              original_length := 12;
              summary_length := 3;
              compression_ratio := (1 # 4)%Q;
              processing_time := 1%Q |} in
  fst (track_summarization env tracing_enabled (strip (words 12))
                           (py "medium") r initial_world) = Ok r
  /\ fst (summarize_article env tracing_enabled sample_request initial_world)
     = Ok r.
Proof.
  intros env r. split.
  - apply (proj1 (telemetry_failure_never_propagates env tracing_enabled)).
  - apply (proj2 (telemetry_failure_never_propagates env tracing_enabled)
             sample_request initial_world
             (snd (summarize_text env (req_text sample_request)
                     (req_summary_length sample_request) 3
                     (snd (logger info "Summarization request received"
                                  initial_world))))
             r).
    vm_compute. reflexivity.
Defined.

(** The endpoint when every one of the three attempts fails: the status
    depends on the class of the exception the last attempt left. *)
Lemma summarize_article_exhausted (env : Env) (svc : LangSmithService)
    (req : SummaryRequest) :
  let prompt :=
    _get_summary_prompt (req_text req) (req_summary_length req) in
  (forall i, (i < 3)%nat ->
     attempt_fails (generate_content env i prompt) = true) ->
  let e := attempt_error (generate_content env 2 prompt) in
  exists resp,
    fst (summarize_article env svc req initial_world) = Err resp
    /\ status_code resp = (if isinstance_ValueError e then 400 else 500)
    /\ error_code (http_detail resp)
       = (if isinstance_ValueError e
          then "VALIDATION_ERROR" else "SUMMARIZATION_ERROR")%string.
Proof.
  intros prompt Hfail e.
  set (w1 := snd (logger info "Summarization request received" initial_world)).
  pose proof (summarize_text_run env (req_text req) (req_summary_length req)
                3 w1) as H.
  cbv zeta in H. fold prompt in H.
  change (calls_made w1) with 0%nat in H.
  change (reachable_attempts 3) with 3%nat in H.
  rewrite (first_success_none _ 3 0%nat) in H by exact Hfail.
  destruct H as [Hr _]. change (3 <=? 1025) with true in Hr.
  cbn [Nat.add] in Hr. fold e in Hr.
  unfold summarize_article, summarize_article_body.
  unfold bind at 1. cbn [logger emit]. unfold bind at 1.
  change {| events := events initial_world
                      ++ [EvLog info "Summarization request received"];
            calls_made := calls_made initial_world;
            clock_reads := clock_reads initial_world |} with w1.
  destruct (summarize_text env (req_text req) (req_summary_length req) 3 w1)
    as [res w2].
  cbn [fst] in Hr. subst res.
  destruct (isinstance_ValueError e); eexists; repeat split.
Qed.

(** C1 fails on the code: when all three attempts end with an empty
    response, the ValueError raised by the last attempt reaches the
    endpoint's [except ValueError] clause and the caller is answered 400
    VALIDATION_ERROR, not 500 SUMMARIZATION_ERROR. *)
Theorem exhausted_empty_responses_answered_400 :
  fst (summarize_article (env_of (fun _ => empty_text_response))
                         tracing_disabled sample_request initial_world)
  = Err {| status_code := 400;
           http_detail :=
             {| error_title := "Validation error";
                detail := "Empty response from Gemini API";
                error_code := "VALIDATION_ERROR" |} |}.
Proof. vm_compute. reflexivity. Qed.

(** The sibling path: a last attempt that fails with any other exception is
    answered 500 SUMMARIZATION_ERROR. *)
Example exhausted_transport_errors_answered_500 :
  fst (summarize_article
         (env_of (fun _ => Raises (OtherException "ServiceUnavailable" "503")))
         tracing_disabled sample_request initial_world)
  = Err {| status_code := 500;
           http_detail :=
             {| error_title := "Summarization failed";
                detail := "Unable to generate summary. Please try again.";
                error_code := "SUMMARIZATION_ERROR" |} |}.
Proof. vm_compute. reflexivity. Qed.

(* ------------------------------------------------------------------ *)
(** ** The prompt builder *)
(* ------------------------------------------------------------------ *)

Lemma pystr_eqb_eq (a b : pystr) : pystr_eqb a b = true <-> a = b.
Proof.
  revert b. induction a as [|x a IH]; intros [|y b]; simpl;
    try (split; [discriminate|discriminate]); [tauto|].
  rewrite andb_true_iff, N.eqb_eq, IH. split.
  - now intros [-> ->].
  - intros H. injection H as -> ->. now split.
Qed.

Lemma startswith_refl_app (j B : pystr) : startswith j (j ++ B) = true.
Proof.
  induction j as [|x j IH]; [reflexivity|].
  simpl. now rewrite N.eqb_refl.
Qed.

Lemma startswith_iff (j h : pystr) :
  startswith j h = true <-> exists post, h = j ++ post.
Proof.
  revert h. induction j as [|x j IH]; intros h.
  - simpl. split; [now exists h|reflexivity].
  - destruct h as [|y h]; simpl.
    + split; [discriminate|]. intros [post H]. discriminate.
    + rewrite andb_true_iff, N.eqb_eq, IH. split.
      * intros [-> [post ->]]. now exists post.
      * intros [post H]. injection H as -> ->. split; [reflexivity|].
        now exists post.
Qed.

Lemma contains_iff_substring (j h : pystr) :
  contains j h = true <-> substring j h.
Proof.
  unfold substring. induction h as [|c h IH].
  - simpl. rewrite orb_false_r, startswith_iff. split.
    + intros [post H]. now exists [], post.
    + intros [pre [post H]]. destruct pre as [|p pre]; [now exists post|].
      discriminate.
  - cbn [contains]. rewrite orb_true_iff, startswith_iff, IH. split.
    + intros [[post H]|[pre [post H]]].
      * now exists [], post.
      * exists (c :: pre), post. now rewrite H.
    + intros [pre [post H]]. destruct pre as [|p pre].
      * left. now exists post.
      * right. injection H as _ H. now exists pre, post.
Qed.

Lemma contains_intro (A j B : pystr) : contains j (A ++ j ++ B) = true.
Proof.
  apply contains_iff_substring. now exists A, B.
Qed.

Lemma startswith_app_agrees (j u X : pystr) :
  startswith j (u ++ X) = true -> agrees j u = true.
Proof.
  revert u. induction j as [|x j IH]; intros [|y u]; simpl; try reflexivity.
  rewrite !andb_true_iff. intros [Hxy H]. split; [exact Hxy|now apply IH].
Qed.

Lemma contains_app_left (P j X : pystr) :
  no_overlap P j = true -> contains j (P ++ X) = contains j X.
Proof.
  induction P as [|c P IH]; intros H; [reflexivity|].
  cbn [no_overlap] in H. apply andb_true_iff in H as [Hhere Hrest].
  apply negb_true_iff in Hhere.
  change ((c :: P) ++ X) with (c :: (P ++ X)). cbn [contains].
  rewrite (IH Hrest).
  destruct (startswith j (c :: P ++ X)) eqn:Hs; [|reflexivity].
  apply (startswith_app_agrees j (c :: P) X) in Hs. congruence.
Qed.

Lemma startswith_app_right (j S : pystr) :
  no_suffix_starts j S = true ->
  forall U, startswith j (U ++ S) = startswith j U.
Proof.
  induction j as [|x j IH]; intros H U; [reflexivity|].
  cbn [no_suffix_starts] in H. apply andb_true_iff in H as [Hhere Hrest].
  apply negb_true_iff in Hhere.
  destruct U as [|y U]; [exact Hhere|].
  simpl. now rewrite (IH Hrest).
Qed.

Lemma contains_app_right (j S T : pystr) :
  no_suffix_starts j S = true -> contains j S = false ->
  contains j (T ++ S) = contains j T.
Proof.
  intros Hsuf HS. induction T as [|c T IH].
  - cbn [app]. rewrite HS. destruct j as [|x j]; [|reflexivity].
    destruct S; discriminate.
  - change ((c :: T) ++ S) with (c :: (T ++ S)). cbn [contains].
    rewrite IH.
    change (c :: T ++ S) with ((c :: T) ++ S).
    now rewrite (startswith_app_right j S Hsuf).
Qed.

(** An instruction that is not the rendered one occurs in the prompt only
    if it occurs in the text. *)
Lemma other_instruction_only_from_text (instruction j text : pystr) :
  no_overlap (prompt_head ++ instruction ++ prompt_middle) j = true ->
  no_suffix_starts j prompt_tail = true ->
  contains j prompt_tail = false ->
  contains j (prompt_head ++ instruction ++ prompt_middle
              ++ text ++ prompt_tail)
  = contains j text.
Proof.
  intros Hleft Hright Htail.
  replace (prompt_head ++ instruction ++ prompt_middle ++ text ++ prompt_tail)
    with ((prompt_head ++ instruction ++ prompt_middle)
          ++ (text ++ prompt_tail))
    by now rewrite <- !app_assoc.
  rewrite (contains_app_left _ _ _ Hleft).
  now apply contains_app_right.
Qed.

Lemma selected_instruction (length : pystr) :
  let instruction := dict_get length_instructions length
                       (dict_get length_instructions (py "medium") []) in
  (length = py "short" /\ instruction = instruction_short)
  \/ (length = py "long" /\ instruction = instruction_long)
  \/ (length <> py "short" /\ length <> py "long"
      /\ instruction = instruction_medium).
Proof.
  cbv zeta. cbn [dict_get length_instructions].
  destruct (pystr_eqb (py "short") length) eqn:Hs.
  { apply pystr_eqb_eq in Hs. left. now split. }
  destruct (pystr_eqb (py "medium") length) eqn:Hm.
  { apply pystr_eqb_eq in Hm. right. right. subst length.
    repeat split; discriminate. }
  destruct (pystr_eqb (py "long") length) eqn:Hl.
  { apply pystr_eqb_eq in Hl. right. left. now split. }
  right. right. repeat split.
  - intros ->. discriminate.
  - intros ->. discriminate.
Qed.

(** C7, as stated, fails: for a valid normalised text that quotes the short
    and the long instruction, the prompt rendered for the medium tier
    contains all three tier instructions, not exactly one. *)
Lemma prompt_with_three_instructions :
  SummaryRequest_text quoting_text = Ok quoting_text
  /\ instructions_in (_get_summary_prompt quoting_text (py "medium"))
     = [instruction_short; instruction_medium; instruction_long].
Proof. split; vm_compute; reflexivity. Qed.

(** C7 (amended): for every text and every length-tier token, the prompt is
    the fixed template around one tier instruction and the text; it
    contains the text verbatim and the instruction of the tier (the medium
    one for a token outside short|medium|long); and when the text itself
    contains none of the three tier instructions, that instruction is the
    only one of the three the prompt contains. *)
Theorem prompt_embeds_text_and_instruction (text length : pystr) :
  let prompt := _get_summary_prompt text length in
  let instruction := dict_get length_instructions length instruction_medium in
  prompt = prompt_head ++ instruction ++ prompt_middle ++ text ++ prompt_tail
  /\ substring text prompt
  /\ substring instruction prompt
  /\ In instruction tier_instructions
  /\ (length = py "short" -> instruction = instruction_short)
  /\ (length = py "medium" -> instruction = instruction_medium)
  /\ (length = py "long" -> instruction = instruction_long)
  /\ (~ In length tier_tokens -> instruction = instruction_medium)
  /\ (instructions_in text = [] -> instructions_in prompt = [instruction]).
Proof.
  intros prompt instruction.
  assert (Hshape : prompt = prompt_head ++ instruction ++ prompt_middle
                            ++ text ++ prompt_tail) by reflexivity.
  pose proof (selected_instruction length) as Hsel. cbv zeta in Hsel.
  change (dict_get length_instructions length
            (dict_get length_instructions (py "medium") []))
    with instruction in Hsel.
  split; [exact Hshape|].
  split.
  { exists (prompt_head ++ instruction ++ prompt_middle), prompt_tail.
    rewrite Hshape. now rewrite <- !app_assoc. }
  split.
  { exists prompt_head, (prompt_middle ++ text ++ prompt_tail).
    exact Hshape. }
  split.
  { destruct Hsel as [[_ ->]|[[_ ->]|[_ [_ ->]]]]; cbn; tauto. }
  split.
  { intros ->. reflexivity. }
  split.
  { intros ->. reflexivity. }
  split.
  { intros ->. reflexivity. }
  split.
  { intros Hnot.
    destruct Hsel as [[-> _]|[[-> _]|[_ [_ H]]]]; [| |exact H];
      exfalso; apply Hnot; cbn; tauto. }
  intros Hnone. unfold instructions_in in Hnone |- *.
  cbn [filter tier_instructions] in Hnone |- *.
  destruct (contains instruction_short text) eqn:Hs; [discriminate|].
  destruct (contains instruction_medium text) eqn:Hm; [discriminate|].
  destruct (contains instruction_long text) eqn:Hl; [discriminate|].
  rewrite Hshape.
  destruct Hsel as [[_ ->]|[[_ ->]|[_ [_ ->]]]];
    rewrite contains_intro;
    rewrite !other_instruction_only_from_text by (vm_compute; reflexivity);
    rewrite ?Hs, ?Hm, ?Hl; reflexivity.
Qed.

Lemma prompt_embeds_text_and_instruction_witness :
  let prompt := _get_summary_prompt (strip (words 12)) (py "brief") in
  (dict_get length_instructions (py "short") instruction_medium
   = instruction_short)
  /\ (dict_get length_instructions (py "brief") instruction_medium
      = instruction_medium)
  /\ instructions_in prompt = [instruction_medium].
Proof.
  intros prompt.
  pose proof (prompt_embeds_text_and_instruction (strip (words 12))
                (py "short")) as Hshort.
  pose proof (prompt_embeds_text_and_instruction (strip (words 12))
                (py "brief")) as Hbrief.
  cbv zeta in Hshort, Hbrief.
  destruct Hshort as [_ [_ [_ [_ [Hs _]]]]].
  destruct Hbrief as [_ [_ [_ [_ [_ [_ [_ [Hunknown Hone]]]]]]]].
  split; [apply Hs; reflexivity|].
  split.
  - apply Hunknown. vm_compute. intros [H|[H|[H|[]]]]; discriminate.
  - replace (instructions_in prompt)
      with (instructions_in (_get_summary_prompt (strip (words 12))
                                                 (py "brief")))
      by reflexivity.
    rewrite Hone.
    + reflexivity.
    + vm_compute. reflexivity.
Defined.

(* ================================================================== *)
(** * Further properties of the code *)
(* ================================================================== *)

(* ------------------------------------------------------------------ *)
(** ** The validator and the normal form of its result *)
(* ------------------------------------------------------------------ *)

Lemma split_nil_lstrip (s : pystr) : split s = [] -> lstrip s = [].
Proof.
  induction s as [|c r IH]; [reflexivity|].
  intros H. simpl. destruct (isspace c) eqn:Hc.
  - apply IH. now rewrite <- (split_cons_ws c r Hc).
  - now apply split_nonspace_head in H.
Qed.

Lemma split_nil_strip (s : pystr) : split s = [] -> strip s = [].
Proof. intros H. unfold strip. now rewrite (split_nil_lstrip s H). Qed.

(** [validate_text] decides by the number of words alone: no word, the
    text is reported empty; one to nine words, too few words; ten or more,
    the normalised text is returned. *)
Theorem validate_text_by_word_count (s : pystr) :
  (split s = [] ->
   validate_text s
   = Err (value_error "Text cannot be empty or only whitespace"))
  /\ (split s <> [] -> len (split s) < 10 ->
      validate_text s
      = Err (value_error "Text must contain at least 10 words"))
  /\ (10 <= len (split s) -> validate_text s = Ok (strip (re_sub_ws s))).
Proof.
  split; [|split].
  - intros H. unfold validate_text. now rewrite (split_nil_strip s H).
  - intros Hne Hlt. unfold validate_text.
    destruct (strip s) eqn:Hs; [now apply strip_nil_split in Hs|].
    rewrite split_normalize.
    now replace (len (split s) <? 10) with true
      by (symmetry; now apply Z.ltb_lt).
  - apply validate_text_ok.
Qed.

Lemma validate_text_by_word_count_witness :
  validate_text (repeat space 60)
  = Err (value_error "Text cannot be empty or only whitespace")
  /\ validate_text (words 9)
     = Err (value_error "Text must contain at least 10 words")
  /\ validate_text (words 10) = Ok (strip (re_sub_ws (words 10))).
Proof.
  split; [|split].
  - apply (proj1 (validate_text_by_word_count (repeat space 60))).
    reflexivity.
  - apply (proj1 (proj2 (validate_text_by_word_count (words 9)))).
    + vm_compute. discriminate.
    + vm_compute. reflexivity.
  - apply (proj2 (proj2 (validate_text_by_word_count (words 10)))).
    vm_compute. discriminate.
Defined.

(** The text [validate_text] returns is the words of the input, in order,
    joined by single spaces; it has the same words as the input and is not
    longer. *)
Theorem validated_text_is_words_joined (s v : pystr) :
  validate_text s = Ok v ->
  v = join_space (split s) /\ split v = split s /\ len v <= len s.
Proof.
  intros H. apply validate_text_inv in H as [-> _].
  split; [apply normalize_join|].
  split; [apply split_normalize|apply len_normalize].
Qed.

Lemma validated_text_is_words_joined_witness :
  py "a b c d e f g h i j" = join_space (split padded_ten_words)
  /\ split (py "a b c d e f g h i j") = split padded_ten_words
  /\ len (py "a b c d e f g h i j") <= len padded_ten_words.
Proof.
  apply (validated_text_is_words_joined padded_ten_words).
  vm_compute. reflexivity.
Defined.

Lemma sub_ws_nonspace_app (w t : pystr) :
  w <> [] -> forallb (fun c => negb (isspace c)) w = true ->
  forall b, sub_ws_runs b (w ++ t) = w ++ sub_ws_runs false t.
Proof.
  induction w as [|c w IH]; intros Hne Hall b; [contradiction|].
  simpl in Hall. apply andb_true_iff in Hall as [Hc Hw].
  apply negb_true_iff in Hc.
  change ((c :: w) ++ t) with (c :: (w ++ t)).
  cbn [sub_ws_runs]. rewrite Hc.
  destruct w as [|d w']; [reflexivity|].
  rewrite (IH ltac:(discriminate) Hw false). reflexivity.
Qed.

Lemma sub_ws_join_space (ws : list pystr) :
  Forall word ws -> forall b, sub_ws_runs b (join_space ws) = join_space ws.
Proof.
  induction ws as [|w ws IH]; intros H b; [reflexivity|].
  inversion H as [|? ? [Hne Hall] Hws]; subst.
  destruct ws as [|w2 rest].
  - cbn [join_space]. rewrite <- (app_nil_r w) at 1.
    rewrite (sub_ws_nonspace_app w [] Hne Hall b). cbn. apply app_nil_r.
  - change (join_space (w :: w2 :: rest))
      with (w ++ space :: join_space (w2 :: rest)).
    rewrite (sub_ws_nonspace_app w _ Hne Hall b).
    cbn [sub_ws_runs]. rewrite isspace_space.
    now rewrite (IH Hws true).
Qed.

Lemma join_space_whitespace (ws : list pystr) :
  Forall word ws ->
  Forall (fun c => isspace c = true -> c = space) (join_space ws).
Proof.
  assert (Hword : forall w, forallb (fun c => negb (isspace c)) w = true ->
            Forall (fun c => isspace c = true -> c = space) w).
  { induction w as [|c w IHw]; intros Hall; [constructor|].
    simpl in Hall. apply andb_true_iff in Hall as [Hc Hw].
    apply negb_true_iff in Hc. constructor; [congruence|now apply IHw]. }
  induction ws as [|w ws IH]; intros H; [constructor|].
  inversion H as [|? ? [Hne Hall] Hws]; subst.
  destruct ws as [|w2 rest]; [now apply Hword|].
  change (join_space (w :: w2 :: rest))
    with (w ++ space :: join_space (w2 :: rest)).
  apply Forall_app. split; [now apply Hword|].
  constructor; [reflexivity|now apply IH].
Qed.

(** The text [validate_text] returns is in normal form: replacing
    whitespace runs or stripping it again changes nothing, and the only
    whitespace it contains is U+0020 (tabs, newlines and the other Unicode
    spaces are gone). *)
Theorem validated_text_normal_form (s v : pystr) :
  validate_text s = Ok v ->
  re_sub_ws v = v
  /\ strip v = v
  /\ Forall (fun c => isspace c = true -> c = space) v.
Proof.
  intros H. apply validate_text_inv in H as [-> _].
  assert (Hsub : re_sub_ws (strip (re_sub_ws s)) = strip (re_sub_ws s)).
  { rewrite normalize_join. apply sub_ws_join_space, split_words. }
  split; [exact Hsub|]. split.
  - rewrite <- Hsub at 1. apply normalize_idempotent.
  - rewrite normalize_join. apply join_space_whitespace, split_words.
Qed.

Lemma validated_text_normal_form_witness :
  re_sub_ws (py "a b c d e f g h i j") = py "a b c d e f g h i j"
  /\ strip (py "a b c d e f g h i j") = py "a b c d e f g h i j"
  /\ Forall (fun c => isspace c = true -> c = space)
            (py "a b c d e f g h i j").
Proof.
  apply (validated_text_normal_form padded_ten_words).
  vm_compute. reflexivity.
Defined.

(* ------------------------------------------------------------------ *)
(** ** The page's checks against the service's *)
(* ------------------------------------------------------------------ *)

Lemma len_strip (s : pystr) : len (strip s) <= len s.
Proof.
  unfold len, strip.
  pose proof (length_rstrip (lstrip s)). pose proof (length_lstrip s). lia.
Qed.

Lemma validate_input_none (text : pystr) :
  validate_input text = None ->
  50 <= len (strip text) /\ len text <= 50000 /\ 10 <= len (split text).
Proof.
  unfold validate_input. destruct (strip text) as [|c r] eqn:Hs;
    [discriminate|].
  destruct (len (c :: r) <? 50) eqn:H1; [discriminate|].
  destruct (50000 <? len text) eqn:H2; [discriminate|].
  destruct (len (split text) <? 10) eqn:H3; [discriminate|].
  intros _. apply Z.ltb_ge in H1, H2, H3. now repeat split.
Qed.

(** Every text the page accepts is accepted by the request model of the
    service, which then holds its normalised form. *)
Theorem page_accepted_text_passes_request_validation (text : pystr) :
  validate_input text = None ->
  SummaryRequest_text text = Ok (strip (re_sub_ws text)).
Proof.
  intros H. apply validate_input_none in H as [Hs [Hhi Hw]].
  pose proof (len_strip text).
  apply SummaryRequest_text_ok; [lia|exact Hw].
Qed.

Lemma page_accepted_text_passes_request_validation_witness :
  SummaryRequest_text spaced_pangram = Ok (strip (re_sub_ws spaced_pangram)).
Proof.
  apply (page_accepted_text_passes_request_validation spaced_pangram).
  vm_compute. reflexivity.
Defined.

(** The converse fails: the service accepts a 50 code point text that the
    page refuses because fewer than 50 remain once it is stripped. *)
Example request_validation_accepts_more_than_page :
  validate_input padded_ten_words
  = Some "Text must be at least 50 characters long."%string
  /\ SummaryRequest_text padded_ten_words = Ok (py "a b c d e f g h i j").
Proof. split; vm_compute; reflexivity. Qed.

(** The statistics the page computes from the text the user typed agree
    with the result of the service, which counted the normalised text: the
    word count shown is the result's [original_length], and the
    compression shown is one hundred times the result's
    [compression_ratio]. *)
Theorem page_stats_agree_with_result (env : Env) (raw v tier : pystr)
    (max_retries : Z) (w w' : World) (r : SummaryResult) :
  SummaryRequest_text raw = Ok v ->
  summarize_text env v tier max_retries w = (Ok r, w') ->
  let stats :=
    display_stats raw (Some (summary r)) (Some (processing_time r)) in
  stat_words stats = original_length r
  /\ (summary r <> [] ->
      stat_compression stats = Some (compression_ratio r * 100)%Q).
Proof.
  intros Hval Hrun.
  apply SummaryRequest_text_inv in Hval as [_ Hval].
  apply validate_text_inv in Hval as [Hv Hwords].
  apply summarize_text_ok_inv in Hrun as [t [now [start ->]]].
  assert (Hsame : len (split raw) = len (split v))
    by (rewrite Hv; now rewrite split_normalize).
  cbn [display_stats stat_words stat_compression original_length summary
       compression_ratio result_of].
  split; [exact Hsame|].
  intros Hne. destruct (strip t) as [|c s] eqn:Hst; [contradiction|].
  rewrite Hsame. unfold spec_compression_ratio.
  replace (0 <? len (split v)) with true
    by (symmetry; apply Z.ltb_lt; lia).
  reflexivity.
Qed.

Lemma page_stats_agree_with_result_witness :
  let r := {| summary := py "word word word";
              original_length := 12;
              summary_length := 3;
              compression_ratio := (1 # 4)%Q;
              processing_time := 1%Q |} in
  let stats :=
    display_stats (words 12) (Some (summary r)) (Some (processing_time r)) in
  stat_words stats = original_length r
  /\ (summary r <> [] ->
      stat_compression stats = Some (compression_ratio r * 100)%Q).
Proof.
  intros r.
  apply (page_stats_agree_with_result
           (env_of (fun _ => text_response (words 3)))
           (words 12) (strip (re_sub_ws (words 12))) (py "short") 3
           initial_world
           (snd (summarize_text (env_of (fun _ => text_response (words 3)))
                                (strip (re_sub_ws (words 12))) (py "short") 3
                                initial_world))
           r).
  - vm_compute. reflexivity.
  - vm_compute. reflexivity.
Defined.

(* ------------------------------------------------------------------ *)
(** ** More on the bounded retry executor *)
(* ------------------------------------------------------------------ *)

Lemma calls_in_events (w : World) :
  calls_in (events w) = calls_in (io_trace w).
Proof. unfold io_trace. now rewrite calls_in_io. Qed.

Lemma sleeps_in_events (w : World) :
  sleeps_in (events w) = sleeps_in (io_trace w).
Proof. unfold io_trace. now rewrite sleeps_in_io. Qed.

(** Whatever the remote call does, a run never makes more than
    [max_retries] calls, and every call it makes carries the same rendered
    prompt. *)
Theorem calls_bounded_by_max_retries (env : Env) (text tier : pystr)
    (max_retries : Z) :
  let w' := snd (summarize_text env text tier max_retries initial_world) in
  (calls_made w' <= Z.to_nat max_retries)%nat
  /\ calls_in (events w')
     = repeat (_get_summary_prompt text tier) (calls_made w').
Proof.
  intros w'.
  pose proof (summarize_text_run env text tier max_retries initial_world)
    as H.
  cbv zeta in H. fold w' in H.
  change (io_trace initial_world) with (@nil event) in H.
  cbn [calls_made initial_world app Nat.add] in H.
  rewrite calls_in_events.
  pose proof (reachable_attempts_le max_retries) as [Hle _].
  destruct (first_success _ 0%nat (reachable_attempts max_retries))
    as [j|] eqn:Hfs.
  - apply first_success_some in Hfs as [Hlt _].
    destruct H as [_ [Hio Hc]]. rewrite Hio, Hc.
    split; [lia|]. rewrite calls_in_backoff_schedule.
    f_equal. lia.
  - destruct (reachable_attempts max_retries) as [|k'];
      destruct H as [_ [Hio Hc]]; rewrite Hio, Hc.
    + split; [lia|reflexivity].
    + split; [lia|]. apply calls_in_backoff_schedule.
Qed.

Lemma total_sleep_backoff_schedule (p : pystr) (k : nat) :
  forall a, 0 <= a ->
    total_sleep (backoff_schedule p a k) = 2 ^ a * (2 ^ Z.of_nat k - 1).
Proof.
  unfold total_sleep, sleeps_in.
  induction k as [|k IH]; intros a Ha.
  - cbn. lia.
  - cbn [backoff_schedule flat_map app fold_right].
    rewrite (IH (a + 1)) by lia.
    rewrite Nat2Z.inj_succ, !Z.pow_succ_r by lia.
    replace (2 ^ (a + 1)) with (2 * 2 ^ a) by (rewrite Z.pow_add_r; lia).
    lia.
Qed.

(** The seconds a run sleeps in total are [2^(c-1) - 1] for its [c] calls:
    nothing for a first-attempt success, 1, 3, 7, ... after one, two,
    three, ... failed attempts; never more than [2^(max_retries-1) - 1],
    which is 3 seconds for the default of three attempts. *)
Theorem total_backoff_delay (env : Env) (text tier : pystr)
    (max_retries : Z) :
  let w' := snd (summarize_text env text tier max_retries initial_world) in
  (max_retries <= 0 -> total_sleep (events w') = 0)
  /\ (0 < max_retries ->
      total_sleep (events w') = 2 ^ (Z.of_nat (calls_made w') - 1) - 1
      /\ total_sleep (events w') <= 2 ^ (max_retries - 1) - 1).
Proof.
  intros w'.
  pose proof (summarize_text_run env text tier max_retries initial_world)
    as H.
  cbv zeta in H. fold w' in H.
  change (io_trace initial_world) with (@nil event) in H.
  cbn [calls_made initial_world app Nat.add] in H.
  assert (Htot : total_sleep (events w') = total_sleep (io_trace w'))
    by (unfold total_sleep; now rewrite sleeps_in_events).
  rewrite Htot.
  assert (Hsched : forall j : nat,
            io_trace w' = backoff_schedule (_get_summary_prompt text tier) 0 j ->
            calls_made w' = S j ->
            Z.of_nat j <= max_retries - 1 ->
            total_sleep (io_trace w') = 2 ^ (Z.of_nat (calls_made w') - 1) - 1
            /\ total_sleep (io_trace w') <= 2 ^ (max_retries - 1) - 1).
  { intros j Hio Hc Hj. rewrite Hio, Hc.
    rewrite total_sleep_backoff_schedule by lia.
    replace (Z.of_nat (S j) - 1) with (Z.of_nat j) by lia.
    rewrite Z.pow_0_r, Z.mul_1_l.
    split; [reflexivity|].
    assert (2 ^ Z.of_nat j <= 2 ^ (max_retries - 1))
      by (apply Z.pow_le_mono_r; lia).
    lia. }
  pose proof (reachable_attempts_le max_retries) as [Hreach _].
  split.
  - intros Hle.
    replace (reachable_attempts max_retries) with 0%nat in H
      by (unfold reachable_attempts; lia).
    cbn [first_success] in H. destruct H as [_ [Hio _]]. now rewrite Hio.
  - intros Hpos.
    destruct (first_success _ 0%nat (reachable_attempts max_retries))
      as [j|] eqn:Hfs.
    + apply first_success_some in Hfs as [Hlt _].
      destruct H as [_ [Hio Hc]]. apply (Hsched j); [exact Hio|lia|lia].
    + destruct (reachable_attempts max_retries) as [|k'] eqn:Hk;
        [unfold reachable_attempts in Hk; lia|].
      destruct H as [_ [Hio Hc]]. apply (Hsched k'); [exact Hio|lia|lia].
Qed.

Lemma total_backoff_delay_witness :
  let w' := snd (summarize_text (env_of (fun _ => missing_response))
                                (words 12) (py "short") 3 initial_world) in
  total_sleep
    (events (snd (summarize_text (env_of (fun _ => missing_response))
                                 (words 12) (py "short") 0 initial_world)))
  = 0
  /\ total_sleep (events w') = 2 ^ (Z.of_nat (calls_made w') - 1) - 1
  /\ total_sleep (events w') <= 2 ^ (3 - 1) - 1.
Proof.
  intros w'. split.
  - apply (proj1 (total_backoff_delay (env_of (fun _ => missing_response))
                    (words 12) (py "short") 0)). lia.
  - apply (proj2 (total_backoff_delay (env_of (fun _ => missing_response))
                    (words 12) (py "short") 3)). lia.
Defined.

(** With [max_retries] zero or negative the loop body never runs: no call
    is made, nothing is slept, and the RuntimeError that follows the loop
    is raised. *)
Theorem nonpositive_max_retries_raises_without_call (env : Env)
    (text tier : pystr) (max_retries : Z) (w : World) :
  max_retries <= 0 ->
  let run := summarize_text env text tier max_retries w in
  fst run = Err (RuntimeError "Failed to generate summary after all retries")
  /\ calls_made (snd run) = calls_made w
  /\ io_trace (snd run) = io_trace w.
Proof.
  intros Hle run.
  pose proof (summarize_text_run env text tier max_retries w) as H.
  cbv zeta in H. fold run in H.
  replace (reachable_attempts max_retries) with 0%nat in H
    by (unfold reachable_attempts; lia).
  cbn [first_success] in H. destruct H as [Hr [Hio Hc]].
  now repeat split.
Qed.

Lemma nonpositive_max_retries_raises_without_call_witness :
  let run := summarize_text (env_of (fun _ => text_response (words 3)))
                            (words 12) (py "short") (-1) initial_world in
  fst run = Err (RuntimeError "Failed to generate summary after all retries")
  /\ calls_made (snd run) = calls_made initial_world
  /\ io_trace (snd run) = io_trace initial_world.
Proof.
  apply (nonpositive_max_retries_raises_without_call
           (env_of (fun _ => text_response (words 3)))
           (words 12) (py "short") (-1) initial_world).
  lia.
Defined.

(** With a positive [max_retries] the function raises only once every
    attempt it made has failed.  Up to a budget of 1025 the whole budget is
    used: exactly [max_retries] calls were made and the exception raised is
    the one of the last attempt; those of the earlier attempts are dropped
    and the statement after the loop is not reached.  With a larger budget
    exactly 1025 calls were made and the exception is the OverflowError of
    the delay [2^1024] that would follow attempt 1024. *)
Theorem raised_error_is_last_attempts (env : Env) (text tier : pystr)
    (max_retries : Z) (e : exn) (w' : World) :
  0 < max_retries ->
  summarize_text env text tier max_retries initial_world = (Err e, w') ->
  let out := fun i => generate_content env i (_get_summary_prompt text tier) in
  (forall i, (i < calls_made w')%nat -> attempt_fails (out i) = true)
  /\ (max_retries <= 1025 ->
      calls_made w' = Z.to_nat max_retries
      /\ e = attempt_error (out (Z.to_nat max_retries - 1)%nat))
  /\ (1025 < max_retries ->
      calls_made w' = 1025%nat /\ e = OverflowError).
Proof.
  intros Hpos Hrun out.
  pose proof (summarize_text_run env text tier max_retries initial_world)
    as H.
  cbv zeta in H. fold out in H. rewrite Hrun in H.
  cbn [fst snd calls_made initial_world Nat.add] in H.
  destruct (first_success out 0%nat (reachable_attempts max_retries))
    as [j|] eqn:Hfs.
  - destruct H as [[t [_ Hr]] _]. discriminate.
  - pose proof (first_success_none_inv _ _ _ Hfs) as Hall.
    destruct (reachable_attempts max_retries) as [|n'] eqn:Hn;
      [unfold reachable_attempts in Hn; lia|].
    destruct H as [Hr [_ Hc]]. injection Hr as ->.
    unfold reachable_attempts in Hn.
    split; [|split].
    + intros i Hi. apply (Hall i). lia.
    + intros Hsmall.
      replace (max_retries <=? 1025) with true
        by (symmetry; apply Z.leb_le; lia).
      replace (Z.to_nat max_retries - 1)%nat with n' by lia.
      split; [lia|reflexivity].
    + intros Hbig.
      replace (max_retries <=? 1025) with false
        by (symmetry; apply Z.leb_gt; lia).
      split; [lia|reflexivity].
Qed.

Lemma raised_error_is_last_attempts_witness :
  let out := fun k => match k with
                      | 0%nat => Raises (OtherException "ServiceUnavailable" "503")
                      | 1%nat => Raises (OtherException "DeadlineExceeded" "504")
                      | _ => empty_text_response
                      end in
  let env := env_of out in
  let w' := snd (summarize_text env (words 12) (py "short") 3 initial_world) in
  let e := ValueError "Empty response from Gemini API" in
  (forall i, (i < calls_made w')%nat ->
     attempt_fails (generate_content env i
                      (_get_summary_prompt (words 12) (py "short")))
     = true)
  /\ (3 <= 1025 ->
      calls_made w' = Z.to_nat 3
      /\ e = attempt_error (generate_content env (Z.to_nat 3 - 1)%nat
                              (_get_summary_prompt (words 12) (py "short"))))
  /\ (1025 < 3 -> calls_made w' = 1025%nat /\ e = OverflowError).
Proof.
  intros out env w' e.
  apply (raised_error_is_last_attempts env (words 12) (py "short") 3 e w').
  - lia.
  - vm_compute. reflexivity.
Defined.

(** The summary returned is built from the payload of the first attempt
    that does not fail among those within reach (the budget, and attempts
    0 to 1024 at most), whatever the later invocations would have done; the
    failures before it cost one call and one sleep each, and the processing
    time spans from before the first attempt to that payload. *)
Theorem first_successful_attempt_is_returned (env : Env) (text tier : pystr)
    (max_retries : Z) (j : nat) :
  let out := fun i => generate_content env i (_get_summary_prompt text tier) in
  first_success out 0 (reachable_attempts max_retries) = Some j ->
  exists t r w',
    attempt_payload (out j) = Some t
    /\ summarize_text env text tier max_retries initial_world = (Ok r, w')
    /\ summary r = strip t
    /\ processing_time r = (time_time env 1 - time_time env 0)%Q
    /\ calls_made w' = S j
    /\ sleeps_in (events w') = map (fun i => 2 ^ Z.of_nat i) (seq 0 j)
    /\ Z.of_nat j < max_retries
    /\ (j <= 1024)%nat.
Proof.
  intros out Hfs.
  pose proof (summarize_text_run env text tier max_retries initial_world)
    as H.
  cbv zeta in H. fold out in H.
  change (io_trace initial_world) with (@nil event) in H.
  cbn [calls_made clock_reads initial_world app Nat.add] in H.
  rewrite Hfs in H. destruct H as [[t [Ht Hr]] [Hio Hc]].
  apply first_success_some in Hfs as [Hlt _].
  unfold reachable_attempts in Hlt.
  destruct (summarize_text env text tier max_retries initial_world)
    as [res w'].
  cbn [fst snd] in Hr, Hio, Hc. subst res.
  exists t. eexists. exists w'.
  split; [exact Ht|]. split; [reflexivity|].
  split; [reflexivity|]. split; [reflexivity|].
  split; [lia|].
  split; [rewrite sleeps_in_events, Hio; apply sleeps_in_backoff_schedule|].
  split; lia.
Qed.

Lemma first_successful_attempt_is_returned_witness :
  let env := env_of (fun k => match k with
                              | 0%nat => missing_response
                              | 1%nat => text_response (py "  second try  ")
                              | _ => text_response (py "third try")
                              end) in
  exists t r w',
    attempt_payload (generate_content env 1
                       (_get_summary_prompt (words 12) (py "short")))
    = Some t
    /\ summarize_text env (words 12) (py "short") 3 initial_world = (Ok r, w')
    /\ summary r = strip t
    /\ processing_time r = (time_time env 1 - time_time env 0)%Q
    /\ calls_made w' = 2%nat
    /\ sleeps_in (events w') = map (fun i => 2 ^ Z.of_nat i) (seq 0 1)
    /\ Z.of_nat 1 < 3
    /\ (1 <= 1024)%nat.
Proof.
  intros env.
  apply (first_successful_attempt_is_returned env (words 12) (py "short")
           3 1).
  reflexivity.
Defined.

(** A success that lies beyond attempt 1024 is never reached: with the
    first 1025 attempts failing, the run ends in OverflowError whatever the
    later invocations would have returned. *)
Example success_beyond_attempt_1024_is_not_reached :
  let env := env_of (fun k => if (k <? 1025)%nat then missing_response
                              else text_response (words 3)) in
  let run := summarize_text env (words 12) (py "short") 1026 initial_world in
  first_success (fun i => generate_content env i
                            (_get_summary_prompt (words 12) (py "short")))
                0 (Z.to_nat 1026) = Some 1025%nat
  /\ fst run = Err OverflowError
  /\ calls_made (snd run) = 1025%nat.
Proof.
  intros env run. split; [vm_compute; reflexivity|].
  pose proof (summarize_text_run env (words 12) (py "short") 1026
                initial_world) as H.
  cbv zeta in H. fold run in H.
  change (reachable_attempts 1026) with 1025%nat in H.
  rewrite (first_success_none _ _ 0%nat) in H.
  - destruct H as [Hr [_ Hc]].
    change (1026 <=? 1025) with false in Hr. cbv iota in Hr.
    split; [exact Hr|exact Hc].
  - intros i Hi. cbn [Nat.add]. unfold env, env_of. cbn [generate_content].
    replace (i <? 1025)%nat with true
      by (symmetry; apply Nat.ltb_lt; exact Hi).
    reflexivity.
Qed.

(** The emptiness test is made before the payload is stripped: a payload
    that is not empty but consists of whitespace only counts as a success,
    and the result carries an empty summary of zero words with ratio zero.
    No retry is made for it. *)
Theorem whitespace_only_payload_is_a_success (env : Env) (text tier : pystr)
    (max_retries : Z) (t : pystr) :
  0 < max_retries ->
  generate_content env 0 (_get_summary_prompt text tier)
  = Returns (Some {| response_text := Some t |}) ->
  t <> [] -> split t = [] ->
  exists r w',
    summarize_text env text tier max_retries initial_world = (Ok r, w')
    /\ summary r = []
    /\ summary_length r = 0
    /\ (compression_ratio r == 0)%Q
    /\ calls_made w' = 1%nat.
Proof.
  intros Hpos Hout Hne Hws.
  pose proof (summarize_text_run env text tier max_retries initial_world)
    as H.
  cbv zeta in H.
  cbn [calls_made clock_reads initial_world Nat.add] in H.
  destruct (reachable_attempts max_retries) as [|k'] eqn:Hk;
    [unfold reachable_attempts in Hk; lia|].
  cbn [first_success] in H. rewrite Hout in H.
  assert (Hpay : response_payload (Some {| response_text := Some t |})
                 = Some t).
  { destruct t; [contradiction|reflexivity]. }
  cbn [attempt_fails] in H. rewrite Hpay in H.
  destruct H as [[t' [Ht Hr]] [_ Hc]].
  cbv beta in Ht. rewrite Hout in Ht. cbn [attempt_payload] in Ht.
  rewrite Hpay in Ht. injection Ht as <-.
  destruct (summarize_text env text tier max_retries initial_world)
    as [res w'].
  cbn [fst snd] in Hr, Hc. subst res.
  eexists. exists w'. split; [reflexivity|].
  cbn [summary summary_length compression_ratio result_of].
  rewrite (split_nil_strip t Hws).
  repeat split; try exact Hc.
  unfold spec_compression_ratio.
  destruct (0 <? len (split text)); [|reflexivity].
  rewrite Qred_correct. unfold Qdiv. apply Qmult_0_l.
Qed.

Lemma whitespace_only_payload_is_a_success_witness :
  exists r w',
    summarize_text (env_of (fun _ => text_response (py "   ")))
                   (words 12) (py "short") 3 initial_world = (Ok r, w')
    /\ summary r = []
    /\ summary_length r = 0
    /\ (compression_ratio r == 0)%Q
    /\ calls_made w' = 1%nat.
Proof.
  apply (whitespace_only_payload_is_a_success
           (env_of (fun _ => text_response (py "   ")))
           (words 12) (py "short") 3 (py "   ")).
  - lia.
  - reflexivity.
  - discriminate.
  - reflexivity.
Defined.

Lemma len_nonneg {A : Type} (l : list A) : 0 <= len l.
Proof. unfold len. lia. Qed.

(** The compression ratio of a result is never negative and is not a
    fraction of one by construction.  For an original of at least one word
    it stays at or below 1 exactly when the summary has no more words than
    the original, and exceeds 1 for a longer summary; for an original
    without a word it is 0, however long the summary. *)
Theorem compression_ratio_bounds (env : Env) (text tier : pystr)
    (max_retries : Z) (w w' : World) (r : SummaryResult) :
  summarize_text env text tier max_retries w = (Ok r, w') ->
  (0 <= compression_ratio r)%Q
  /\ (0 < original_length r ->
      ((compression_ratio r <= 1)%Q
       <-> summary_length r <= original_length r))
  /\ (0 < original_length r -> original_length r < summary_length r ->
      (1 < compression_ratio r)%Q)
  /\ (original_length r <= 0 -> compression_ratio r = 0%Q).
Proof.
  intros Hrun.
  apply summarize_text_ok_inv in Hrun as [t [now [start ->]]].
  cbn [original_length summary_length compression_ratio result_of].
  pose proof (len_nonneg (split (strip t))) as Hs.
  pose proof (len_nonneg (split text)) as Ho.
  unfold spec_compression_ratio.
  destruct (len (split text)) as [|p|p] eqn:Hlen; try lia.
  - cbn [Z.ltb Z.compare].
    split; [apply Qle_refl|]. split; [lia|]. split; [lia|reflexivity].
  - change (0 <? Z.pos p) with true. cbv iota.
    split; [|split; [|split]].
    + rewrite Qred_correct. unfold Qle. cbn. lia.
    + intros _. rewrite Qred_correct. unfold Qle. cbn. lia.
    + intros _ Hlonger. rewrite Qred_correct. unfold Qlt. cbn. lia.
    + lia.
Qed.

Lemma compression_ratio_bounds_witness :
  let r := {| summary := strip (words 20);
              original_length := 12;
              summary_length := 20;
              compression_ratio := (5 # 3)%Q;
              processing_time := 1%Q |} in
  (0 <= compression_ratio r)%Q
  /\ (0 < original_length r ->
      ((compression_ratio r <= 1)%Q
       <-> summary_length r <= original_length r))
  /\ (0 < original_length r -> original_length r < summary_length r ->
      (1 < compression_ratio r)%Q)
  /\ (original_length r <= 0 -> compression_ratio r = 0%Q).
Proof.
  intros r.
  apply (compression_ratio_bounds
           (env_of (fun _ => text_response (words 20)))
           (words 12) (py "long") 3 initial_world
           (snd (summarize_text (env_of (fun _ => text_response (words 20)))
                                (words 12) (py "long") 3 initial_world))
           r).
  vm_compute. reflexivity.
Defined.

(** An original without a word, run through the code: twenty summary words
    against none give the ratio 0, not a ratio above 1. *)
Example ratio_of_wordless_original_is_zero :
  let r := fst (summarize_text (env_of (fun _ => text_response (words 20)))
                               (py "   ") (py "short") 3 initial_world) in
  exists res, r = Ok res /\ summary_length res = 20
              /\ original_length res = 0 /\ compression_ratio res = 0%Q.
Proof. eexists. vm_compute. repeat split. Qed.

(* ------------------------------------------------------------------ *)
(** ** More on the endpoint *)
(* ------------------------------------------------------------------ *)

Lemma log_error_io (svc : LangSmithService) (e : exn) (w : World) :
  io_trace (snd (log_error svc e w)) = io_trace w.
Proof.
  unfold log_error, try_except, logger, emit, ret, io_trace.
  destruct (enabled svc); cbn [negb fst snd events]; [|reflexivity].
  rewrite filter_app. cbn. apply app_nil_r.
Qed.

(** When one of the three attempts succeeds, the endpoint function returns
    the result built from the first successful payload, with its two
    fractions as computed, for an enabled and for a disabled telemetry
    service alike, and the remote calls and sleeps of the whole request are
    those of the retry loop: at most three calls.  This is the value handed
    to the web framework; the JSON that the framework writes from it, where
    the response model's encoder rounds fractions to two decimals, is not
    part of the function. *)
Theorem endpoint_returns_first_success (env : Env) (svc : LangSmithService)
    (req : SummaryRequest) (j : nat) :
  let prompt :=
    _get_summary_prompt (req_text req) (req_summary_length req) in
  let out := fun i => generate_content env i prompt in
  first_success out 0 3 = Some j ->
  exists t w',
    attempt_payload (out j) = Some t
    /\ summarize_article env svc req initial_world
       = (Ok (result_of (req_text req) t (time_time env 1) (time_time env 0)),
          w')
    /\ io_trace w' = backoff_schedule prompt 0 j
    /\ (j < 3)%nat.
Proof.
  intros prompt out Hfs.
  set (w1 := snd (logger info "Summarization request received" initial_world)).
  pose proof (summarize_text_run env (req_text req) (req_summary_length req)
                3 w1) as H.
  cbv zeta in H. fold prompt out in H.
  change (calls_made w1) with 0%nat in H.
  change (clock_reads w1) with 0%nat in H.
  change (io_trace w1) with (@nil event) in H.
  change (reachable_attempts 3) with 3%nat in H.
  rewrite Hfs in H. cbn [Nat.add app] in H.
  destruct H as [[t [Ht Hr]] [Hio _]].
  apply first_success_some in Hfs as [Hlt _].
  unfold summarize_article, summarize_article_body.
  unfold bind at 1. cbn [logger emit]. unfold bind at 1.
  change {| events := events initial_world
                      ++ [EvLog info "Summarization request received"];
            calls_made := calls_made initial_world;
            clock_reads := clock_reads initial_world |} with w1.
  destruct (summarize_text env (req_text req) (req_summary_length req) 3 w1)
    as [res w2].
  cbn [fst snd] in Hr, Hio. subst res. unfold bind at 1.
  pose proof (track_summarization_result env svc (req_text req)
                (req_summary_length req)
                (result_of (req_text req) t (time_time env 1)
                           (time_time env 0)) w2) as Htr.
  pose proof (track_summarization_io env svc (req_text req)
                (req_summary_length req)
                (result_of (req_text req) t (time_time env 1)
                           (time_time env 0)) w2) as Htio.
  destruct (track_summarization env svc (req_text req)
              (req_summary_length req)
              (result_of (req_text req) t (time_time env 1)
                         (time_time env 0)) w2) as [res w3].
  cbn [fst snd] in Htr, Htio. subst res.
  exists t. eexists. split; [exact Ht|]. split; [reflexivity|].
  split; [|exact Hlt].
  cbn [snd]. unfold io_trace in *. cbn [events].
  rewrite filter_app. cbn [filter is_io]. rewrite app_nil_r.
  now rewrite Htio.
Qed.

Lemma endpoint_returns_first_success_witness :
  let env := env_failing_telemetry
               (fun k => match k with
                         | 0%nat => empty_text_response
                         | _ => text_response (words 3)
                         end) in
  let prompt := _get_summary_prompt (req_text sample_request)
                                    (req_summary_length sample_request) in
  exists t w',
    attempt_payload (generate_content env 1 prompt) = Some t
    /\ summarize_article env tracing_enabled sample_request initial_world
       = (Ok (result_of (req_text sample_request) t (time_time env 1)
                        (time_time env 0)), w')
    /\ io_trace w' = backoff_schedule prompt 0 1
    /\ (1 < 3)%nat.
Proof.
  intros env prompt.
  apply (endpoint_returns_first_success env tracing_enabled sample_request 1).
  reflexivity.
Defined.

(** When all three attempts fail and the last one left an exception that is
    not a ValueError, the endpoint has made exactly three calls, with sleeps
    of 1 and 2 seconds between them, and answers 500 SUMMARIZATION_ERROR
    with a fixed detail: nothing of the exception's text reaches the
    caller. *)
Theorem endpoint_failure_response (env : Env) (svc : LangSmithService)
    (req : SummaryRequest) :
  let prompt :=
    _get_summary_prompt (req_text req) (req_summary_length req) in
  (forall i, (i < 3)%nat ->
     attempt_fails (generate_content env i prompt) = true) ->
  isinstance_ValueError (attempt_error (generate_content env 2 prompt))
  = false ->
  exists w',
    summarize_article env svc req initial_world
    = (Err {| status_code := 500;
              http_detail :=
                {| error_title := "Summarization failed";
                   detail := "Unable to generate summary. Please try again.";
                   error_code := "SUMMARIZATION_ERROR" |} |},
       w')
    /\ io_trace w' = [EvCall prompt; EvSleep 1; EvCall prompt; EvSleep 2;
                      EvCall prompt].
Proof.
  intros prompt Hfail Hclass.
  set (e := attempt_error (generate_content env 2 prompt)) in *.
  set (w1 := snd (logger info "Summarization request received" initial_world)).
  pose proof (summarize_text_run env (req_text req) (req_summary_length req)
                3 w1) as H.
  cbv zeta in H. fold prompt in H.
  change (calls_made w1) with 0%nat in H.
  change (io_trace w1) with (@nil event) in H.
  change (reachable_attempts 3) with 3%nat in H.
  rewrite (first_success_none _ 3 0%nat) in H by exact Hfail.
  destruct H as [Hr [Hio _]]. change (3 <=? 1025) with true in Hr.
  cbn [Nat.add app] in Hr, Hio. fold e in Hr.
  unfold summarize_article, summarize_article_body.
  unfold bind at 1. cbn [logger emit]. unfold bind at 1.
  change {| events := events initial_world
                      ++ [EvLog info "Summarization request received"];
            calls_made := calls_made initial_world;
            clock_reads := clock_reads initial_world |} with w1.
  destruct (summarize_text env (req_text req) (req_summary_length req) 3 w1)
    as [res w2].
  cbn [fst snd] in Hr, Hio. subst res. rewrite Hclass.
  eexists. split; [reflexivity|].
  rewrite log_error_io. unfold logger. rewrite io_trace_emit.
  cbn [filter is_io]. rewrite app_nil_r. exact Hio.
Qed.

Lemma endpoint_failure_response_witness :
  let env := env_of (fun _ => Raises (OtherException "PermissionDenied"
                                        "API key not valid: AIza...")) in
  let prompt := _get_summary_prompt (req_text sample_request)
                                    (req_summary_length sample_request) in
  exists w',
    summarize_article env tracing_enabled sample_request initial_world
    = (Err {| status_code := 500;
              http_detail :=
                {| error_title := "Summarization failed";
                   detail := "Unable to generate summary. Please try again.";
                   error_code := "SUMMARIZATION_ERROR" |} |},
       w')
    /\ io_trace w' = [EvCall prompt; EvSleep 1; EvCall prompt; EvSleep 2;
                      EvCall prompt].
Proof.
  intros env prompt.
  apply (endpoint_failure_response env tracing_enabled sample_request).
  - intros i _. reflexivity.
  - reflexivity.
Defined.

(* ------------------------------------------------------------------ *)
(** ** The log lines of a run *)
(* ------------------------------------------------------------------ *)

Lemma count_log_app (lvl : log_level) (msg : string) (a b : list event) :
  count_log lvl msg (a ++ b)
  = (count_log lvl msg a + count_log lvl msg b)%nat.
Proof. unfold count_log. now rewrite filter_app, length_app. Qed.

Lemma attempt_body_events (env : Env) (text tier : pystr) (st : Q) (a : Z)
    (w : World) :
  let prompt := _get_summary_prompt text tier in
  events (snd (attempt_body env text tier st a w))
  = events w
    ++ attempt_events prompt a (generate_content env (calls_made w) prompt).
Proof.
  intros prompt.
  unfold attempt_body, _generate_with_retry, model_generate_content,
    try_except, bind, print, logger, emit, raise, ret, time_now,
    attempt_events.
  fold prompt. cbn [calls_made clock_reads events].
  destruct (generate_content env (calls_made w) prompt) as [r|e].
  - destruct (response_payload r) as [t|].
    + cbn [calls_made clock_reads events]. rewrite guarded_truediv.
      cbn [snd events]. now rewrite <- !app_assoc.
    + cbn [snd events]. now rewrite <- !app_assoc.
  - cbn [snd events]. now rewrite <- !app_assoc.
Qed.

Section LogLines.

Variable env : Env.
Variables text tier : pystr.
Variable max_retries : Z.
Variable st : Q.

Let prompt : pystr := _get_summary_prompt text tier.
Let out : nat -> call_outcome := fun i => generate_content env i prompt.

Let failed_msg : string := "Summary generation attempt failed".
Let exhausted_msg : string := "All summary generation attempts failed".
Let success_msg : string := "Summary generated successfully".

Lemma attempt_events_counts (a : Z) (o : call_outcome) :
  count_log warning failed_msg (attempt_events prompt a o) = 0%nat
  /\ count_log error exhausted_msg (attempt_events prompt a o) = 0%nat
  /\ count_log info success_msg (attempt_events prompt a o)
     = (if attempt_fails o then 0 else 1)%nat.
Proof.
  unfold failed_msg, exhausted_msg, success_msg.
  unfold attempt_events, attempt_fails.
  destruct o as [r|e].
  - destruct (response_payload r); split; [| split | | split]; reflexivity.
  - split; [|split]; reflexivity.
Qed.

Lemma attempts_from_log_lines :
  forall (k : nat) (a : Z) (w : World),
    max_retries = a + Z.of_nat k -> 0 <= a <= 1024 ->
    let w' := snd (attempts_from env text tier max_retries st k a w) in
    let n := Nat.min k (Z.to_nat (1025 - a)) in
    let fs := first_success out (calls_made w) n in
    count_log warning failed_msg (events w')
    = (count_log warning failed_msg (events w)
       + match fs with Some j => j | None => n end)%nat
    /\ count_log error exhausted_msg (events w')
       = (count_log error exhausted_msg (events w)
          + match fs, k with
            | None, S _ => if (max_retries <=? 1025)%Z then 1 else 0
            | _, _ => 0
            end)%nat
    /\ count_log info success_msg (events w')
       = (count_log info success_msg (events w)
          + match fs with Some _ => 1 | None => 0 end)%nat.
Proof.
  induction k as [|k IH]; intros a w Hmax Ha w' n fs.
  - subst w' fs n. cbn. now rewrite !Nat.add_0_r.
  - subst w' fs n. rewrite attempts_from_step. cbv zeta.
    pose proof (attempt_body_result env text tier st a w) as Hres.
    pose proof (attempt_body_events env text tier st a w) as Hev.
    pose proof (attempt_body_calls env text tier st a w) as Hcalls.
    cbv zeta in Hres, Hev. fold prompt in Hres, Hev.
    fold (out (calls_made w)) in Hres, Hev.
    destruct (attempt_events_counts a (out (calls_made w)))
      as [Cw [Ce Cs]].
    replace (Z.to_nat (1025 - a)) with (S (Z.to_nat (1024 - a))) by lia.
    cbn [Nat.min first_success].
    destruct (attempt_fails (out (calls_made w))) eqn:Hfail.
    + apply attempt_fails_payload in Hfail as Hpay.
      rewrite Hpay in Hres. rewrite Hres.
      destruct k as [|k'].
      * replace (a =? max_retries - 1) with true
          by (symmetry; apply Z.eqb_eq; lia).
        replace (max_retries <=? 1025) with true
          by (symmetry; apply Z.leb_le; lia).
        cbn [Nat.min first_success option_map snd logger emit events].
        rewrite Hev, !count_log_app, Cw, Ce, Cs. cbn. lia.
      * replace (a =? max_retries - 1) with false
          by (symmetry; apply Z.eqb_neq; lia).
        rewrite float_overflows_pow2 by lia.
        destruct (1024 <=? a) eqn:Hover.
        -- apply Z.leb_le in Hover.
           replace (Z.to_nat (1024 - a)) with 0%nat by lia.
           replace (max_retries <=? 1025) with false
             by (symmetry; apply Z.leb_gt; lia).
           cbn [Nat.min first_success option_map snd logger emit events].
           rewrite Hev, !count_log_app, Cw, Ce, Cs. cbn. lia.
        -- apply Z.leb_gt in Hover.
           set (w2 := snd (emit (EvSleep (2 ^ a))
                        (snd (logger warning "Summary generation attempt failed"
                           (snd (attempt_body env text tier st a w)))))).
           assert (Hc2 : calls_made w2 = S (calls_made w)) by exact Hcalls.
           assert (He2 : events w2
                         = (events w
                            ++ attempt_events prompt a (out (calls_made w)))
                           ++ [EvLog warning "Summary generation attempt failed";
                               EvSleep (2 ^ a)]).
           { unfold w2, logger, emit. cbn [snd events].
             rewrite Hev, <- !app_assoc. reflexivity. }
           specialize (IH (a + 1) w2 ltac:(lia) ltac:(lia)). cbv zeta in IH.
           rewrite Hc2, He2 in IH. rewrite !count_log_app, Cw, Ce, Cs in IH.
           replace (Z.to_nat (1025 - (a + 1))) with (Z.to_nat (1024 - a))
             in IH by lia.
           destruct IH as [IHw [IHe IHs]].
           rewrite IHw, IHe, IHs.
           destruct (first_success out (S (calls_made w))
                       (Nat.min (S k') (Z.to_nat (1024 - a))));
             cbn [option_map]; cbn; lia.
    + destruct (attempt_payload (out (calls_made w))) as [t|] eqn:Hpay;
        [|apply attempt_fails_payload in Hpay; congruence].
      rewrite Hres. cbn [snd fst].
      rewrite Hev, !count_log_app, Cw, Ce, Cs. lia.
Qed.

End LogLines.

(** The log lines of a run tell how it went: it writes one warning
    "Summary generation attempt failed" per failed attempt, one info
    "Summary generated successfully" exactly when a result is returned, and
    one error "All summary generation attempts failed" exactly when a
    positive budget of at most 1025 attempts was exhausted; a run that ends
    in the OverflowError of the delay [2^1024] has written 1025 warnings
    and no such error line. *)
Theorem log_lines_of_a_run (env : Env) (text tier : pystr) (max_retries : Z) :
  let out := fun i => generate_content env i (_get_summary_prompt text tier) in
  let run := summarize_text env text tier max_retries initial_world in
  let tr := events (snd run) in
  match first_success out 0 (reachable_attempts max_retries) with
  | Some j =>
      (exists r, fst run = Ok r)
      /\ count_log warning "Summary generation attempt failed" tr = j
      /\ count_log error "All summary generation attempts failed" tr = 0%nat
      /\ count_log info "Summary generated successfully" tr = 1%nat
  | None =>
      (exists e, fst run = Err e)
      /\ count_log warning "Summary generation attempt failed" tr
         = reachable_attempts max_retries
      /\ count_log error "All summary generation attempts failed" tr
         = (if (0 <? max_retries) && (max_retries <=? 1025)
            then 1%nat else 0%nat)
      /\ count_log info "Summary generated successfully" tr = 0%nat
  end.
Proof.
  intros out run tr.
  pose proof (summarize_text_run env text tier max_retries initial_world)
    as Hrun.
  cbv zeta in Hrun. fold out run in Hrun.
  cbn [calls_made initial_world] in Hrun.
  assert (Hrun' : run
    = attempts_from env text tier max_retries
        (time_time env (clock_reads initial_world))
        (Z.to_nat max_retries) 0 (snd (time_now env initial_world)))
    by reflexivity.
  destruct (Z.to_nat max_retries) as [|k'] eqn:Hk.
  - replace (reachable_attempts max_retries) with 0%nat in *
      by (unfold reachable_attempts; lia).
    cbn [first_success] in *. destruct Hrun as [Hr _].
    split; [eauto|].
    replace (0 <? max_retries) with false
      by (symmetry; apply Z.ltb_ge; lia).
    subst tr. rewrite Hrun'. cbn. repeat split.
  - pose proof (attempts_from_log_lines env text tier max_retries
                  (time_time env (clock_reads initial_world)) (S k') 0
                  (snd (time_now env initial_world)) ltac:(lia) ltac:(lia))
      as Hlog.
    cbv zeta in Hlog. rewrite <- Hrun' in Hlog. fold tr in Hlog.
    change (calls_made (snd (time_now env initial_world))) with 0%nat in Hlog.
    change (events (snd (time_now env initial_world))) with (@nil event)
      in Hlog.
    fold out in Hlog. cbn [count_log filter length Nat.add] in Hlog.
    replace (Nat.min (S k') (Z.to_nat (1025 - 0)))
      with (reachable_attempts max_retries) in Hlog
      by (unfold reachable_attempts; lia).
    destruct Hlog as [Lw [Le Ls]].
    destruct (first_success out 0 (reachable_attempts max_retries)) as [j|].
    + destruct Hrun as [[t [_ Hr]] _].
      split; [eauto|]. rewrite Lw, Le, Ls. repeat split.
    + destruct (reachable_attempts max_retries) as [|n'] eqn:Hn;
        [unfold reachable_attempts in Hn; lia|].
      destruct Hrun as [Hr _].
      split; [eauto|]. rewrite Lw, Le, Ls.
      replace (0 <? max_retries) with true
        by (symmetry; apply Z.ltb_lt; lia).
      cbn [andb]. repeat split.
Qed.

(** The log of a run that stops after attempt 1024. *)
Example log_lines_of_an_overflowing_run :
  let env := env_of (fun _ => missing_response) in
  let tr := events (snd (summarize_text env (words 12) (py "short") 1026
                                        initial_world)) in
  count_log warning "Summary generation attempt failed" tr = 1025%nat
  /\ count_log error "All summary generation attempts failed" tr = 0%nat.
Proof.
  intros env tr.
  pose proof (log_lines_of_a_run env (words 12) (py "short") 1026) as H.
  cbv zeta in H. fold env tr in H.
  change (reachable_attempts 1026) with 1025%nat in H.
  rewrite (first_success_none _ _ 0%nat) in H by (intros i _; reflexivity).
  destruct H as [_ [Hw [He _]]]. split; [exact Hw|exact He].
Qed.

(* ------------------------------------------------------------------ *)
(** ** Construction of the telemetry service, and the health endpoint *)
(* ------------------------------------------------------------------ *)

(** Constructing the telemetry service never raises, whatever the client
    library does; the service comes out enabled exactly when tracing is
    switched on in the settings, an API key is set, the client could be
    constructed and the connection test passed; and an enabled service
    always holds a client. *)
Theorem langsmith_init_enabled_iff (settings : Settings)
    (client_ctor list_runs : option exn) (environ : Environ) (w : World) :
  exists svc environ' w',
    LangSmithService_init settings client_ctor list_runs environ w
    = (Ok (svc, environ'), w')
    /\ (enabled svc = true
        <-> langchain_tracing_v2 settings = true
            /\ truthy (langchain_api_key settings) = true
            /\ client_ctor = None /\ list_runs = None)
    /\ (enabled svc = true -> client svc = Some tt)
    /\ (client_ctor <> None -> client svc = None)
    /\ io_trace w' = io_trace w.
Proof.
  unfold LangSmithService_init, bind, print, logger, emit, ret, io_trace.
  cbn [events fst snd].
  destruct (langchain_tracing_v2 settings);
    destruct (langchain_api_key settings) as [[|c k]|];
    try (do 3 eexists; split; [reflexivity|];
         cbn [enabled client truthy events];
         rewrite !filter_app; cbn [filter is_io]; rewrite !app_nil_r;
         repeat split; try (intros; intuition congruence)).
  destruct client_ctor as [e1|]; [|destruct list_runs as [e2|]];
    do 3 eexists; (split; [reflexivity|]);
    cbn [enabled client truthy events];
    rewrite !filter_app; cbn [filter is_io]; rewrite !app_nil_r;
    repeat split; try (intros; intuition congruence).
Qed.

(** Whatever the settings are and however the construction ends, it leaves
    tracing switched on in the process environment: LANGSMITH_TRACING is
    "true" and LANGCHAIN_TRACING_V2 is "true", or "True" when the settings
    enable tracing with an API key.  Variables other than the five it
    writes are left as they were. *)
Theorem langsmith_init_forces_tracing_env (settings : Settings)
    (client_ctor list_runs : option exn) (environ : Environ) (w : World) :
  exists svc environ' w',
    LangSmithService_init settings client_ctor list_runs environ w
    = (Ok (svc, environ'), w')
    /\ environ' "LANGSMITH_TRACING"%string = Some "true"%string
    /\ environ' "LANGCHAIN_TRACING_V2"%string
       = Some (if langchain_tracing_v2 settings
                  && truthy (langchain_api_key settings)
               then "True" else "true")%string
    /\ (forall k,
          ~ In k ["LANGCHAIN_TRACING_V2"; "LANGSMITH_TRACING";
                  "LANGCHAIN_ENDPOINT"; "LANGCHAIN_API_KEY";
                  "LANGCHAIN_PROJECT"]%string ->
          environ' k = environ k).
Proof.
  assert (Hother : forall k key v (e : Environ),
            k <> key -> setenv key v e k = e k).
  { intros k key v e Hne. unfold setenv.
    destruct (String.eqb_spec k key); [contradiction|reflexivity]. }
  unfold LangSmithService_init, bind, print, logger, emit, ret.
  destruct (langchain_tracing_v2 settings);
    destruct (langchain_api_key settings) as [[|c k]|];
    try (do 3 eexists; split; [reflexivity|];
         split; [reflexivity|]; split; [reflexivity|];
         intros k0 Hk; cbn [In] in Hk;
         rewrite !Hother by (intros ->; tauto); reflexivity).
  destruct client_ctor as [e1|]; [|destruct list_runs as [e2|]];
    do 3 eexists; (split; [reflexivity|]);
    (split; [reflexivity|]); (split; [reflexivity|]);
    intros k0 Hk; cbn [In] in Hk;
    rewrite !Hother by (intros ->; tauto); reflexivity.
Qed.

(** Once the generation service could be constructed, which requires an
    API key, the health endpoint reports Gemini as "configured": its
    "not_configured" answer cannot be observed on a running service.  The
    telemetry entry mirrors the [enabled] flag. *)
Theorem health_reports_gemini_configured (env : Env) (settings : Settings)
    (svc : LangSmithService) (w : World) :
  GeminiService_init settings = Ok tt ->
  exists h w',
    health_check env settings svc w = (Ok h, w')
    /\ health_status h = "healthy"%string
    /\ health_gemini h = "configured"%string
    /\ (health_langsmith h = "enabled"%string <-> enabled svc = true)
    /\ events w' = events w /\ calls_made w' = calls_made w.
Proof.
  unfold GeminiService_init. intros Hinit.
  destruct (truthy (gemini_api_key settings)) eqn:Hkey; [|discriminate].
  unfold health_check, bind, time_now, ret. rewrite Hkey.
  do 2 eexists. split; [reflexivity|].
  cbn [health_status health_gemini health_langsmith events calls_made].
  repeat split; destruct (enabled svc); intros; congruence.
Qed.

Lemma health_reports_gemini_configured_witness :
  let settings := {| gemini_api_key := Some "k"%string;
                     langchain_tracing_v2 := false;
                     langchain_endpoint := "https://api.smith.langchain.com";
                     langchain_api_key := None;
                     langchain_project := "article-summary-generator" |} in
  exists h w',
    health_check (env_of (fun _ => missing_response)) settings
                 tracing_disabled initial_world = (Ok h, w')
    /\ health_status h = "healthy"%string
    /\ health_gemini h = "configured"%string
    /\ (health_langsmith h = "enabled"%string
        <-> enabled tracing_disabled = true)
    /\ events w' = events initial_world
    /\ calls_made w' = calls_made initial_world.
Proof.
  intros settings.
  apply (health_reports_gemini_configured
           (env_of (fun _ => missing_response)) settings tracing_disabled
           initial_world).
  reflexivity.
Defined.

(* ------------------------------------------------------------------ *)
(** ** The tier token, from validation to the prompt *)
(* ------------------------------------------------------------------ *)

Lemma validate_summary_length_ok_iff (v : pystr) :
  validate_summary_length v = Ok v <-> In v tier_tokens.
Proof.
  unfold validate_summary_length.
  destruct (existsb (pystr_eqb v) tier_tokens) eqn:Hex.
  - apply existsb_exists in Hex as [x [Hin Heq]].
    apply pystr_eqb_eq in Heq. subst x. tauto.
  - split; [discriminate|]. intros Hin. exfalso.
    assert (existsb (pystr_eqb v) tier_tokens = true).
    { apply existsb_exists. exists v. split; [exact Hin|].
      now apply pystr_eqb_eq. }
    congruence.
Qed.

(** The validator of [summary_length] accepts exactly the three tier
    tokens and returns the token unchanged; and for every token it accepts
    the prompt builder finds the token's own entry in its table, so the
    medium fallback is never what selects the instruction of a validated
    request. *)
Theorem validated_tier_selects_its_own_instruction (v : pystr) :
  (validate_summary_length v = Ok v <-> In v tier_tokens)
  /\ (forall v', validate_summary_length v = Ok v' -> v' = v)
  /\ (~ In v tier_tokens ->
      validate_summary_length v
      = Err (value_error "Summary length must be short, medium, or long"))
  /\ (validate_summary_length v = Ok v ->
      exists instruction,
        In (v, instruction) length_instructions
        /\ forall text default,
             prompt_head ++ dict_get length_instructions v default
               ++ prompt_middle ++ text ++ prompt_tail
             = _get_summary_prompt text v
             /\ dict_get length_instructions v default = instruction).
Proof.
  split; [apply validate_summary_length_ok_iff|].
  split.
  { unfold validate_summary_length.
    destruct (existsb (pystr_eqb v) tier_tokens); [|discriminate].
    intros v' H. now injection H. }
  split.
  { intros Hnot. unfold validate_summary_length.
    destruct (existsb (pystr_eqb v) tier_tokens) eqn:Hex; [|reflexivity].
    exfalso. apply Hnot. apply existsb_exists in Hex as [x [Hin Heq]].
    apply pystr_eqb_eq in Heq. now subst x. }
  intros Hok. apply validate_summary_length_ok_iff in Hok.
  cbn [In tier_tokens] in Hok.
  destruct Hok as [<-|[<-|[<-|[]]]].
  - exists instruction_short. split; [cbn; tauto|]. now intros text default.
  - exists instruction_medium. split; [cbn; tauto|]. now intros text default.
  - exists instruction_long. split; [cbn; tauto|]. now intros text default.
Qed.

Lemma validated_tier_selects_its_own_instruction_witness :
  validate_summary_length (py "brief")
  = Err (value_error "Summary length must be short, medium, or long")
  /\ exists instruction,
       In (py "long", instruction) length_instructions
       /\ forall text default,
            prompt_head ++ dict_get length_instructions (py "long") default
              ++ prompt_middle ++ text ++ prompt_tail
            = _get_summary_prompt text (py "long")
            /\ dict_get length_instructions (py "long") default = instruction.
Proof.
  split.
  - apply (proj1 (proj2 (proj2
             (validated_tier_selects_its_own_instruction (py "brief"))))).
    vm_compute. intros [H|[H|[H|[]]]]; discriminate.
  - apply (proj2 (proj2 (proj2
             (validated_tier_selects_its_own_instruction (py "long"))))).
    reflexivity.
Defined.

(* ------------------------------------------------------------------ *)
(** ** Size and injectivity of the prompt *)
(* ------------------------------------------------------------------ *)

Lemma len_app {A : Type} (a b : list A) : len (a ++ b) = len a + len b.
Proof. unfold len. rewrite length_app. lia. Qed.

(** The prompt is the text plus a fixed overhead: 342 code points of
    template and the 31 or 33 of the instruction.  For a text that passed
    request validation it has at most 50375 code points. *)
Theorem prompt_length (text length : pystr) :
  let prompt := _get_summary_prompt text length in
  let instruction := dict_get length_instructions length instruction_medium in
  len prompt = len text + len instruction + 342
  /\ len text + 373 <= len prompt <= len text + 375
  /\ (forall raw, SummaryRequest_text raw = Ok text -> len prompt <= 50375).
Proof.
  intros prompt instruction.
  assert (Hlen : len prompt = len text + len instruction + 342).
  { unfold prompt, _get_summary_prompt.
    change (dict_get length_instructions length
              (dict_get length_instructions (py "medium") []))
      with instruction.
    rewrite !len_app.
    change (len prompt_head) with 70.
    change (len prompt_middle) with 245.
    change (len prompt_tail) with 27. lia. }
  assert (Hinstr : 31 <= len instruction <= 33).
  { pose proof (selected_instruction length) as Hsel. cbv zeta in Hsel.
    change (dict_get length_instructions length
              (dict_get length_instructions (py "medium") []))
      with instruction in Hsel.
    destruct Hsel as [[_ ->]|[[_ ->]|[_ [_ ->]]]]; vm_compute;
      split; discriminate. }
  split; [exact Hlen|]. split; [lia|].
  intros raw Hraw.
  apply SummaryRequest_text_inv in Hraw as [Hbound Hval].
  apply validate_text_inv in Hval as [-> _].
  pose proof (len_normalize raw). lia.
Qed.

Lemma prompt_length_witness :
  let text := strip (re_sub_ws (words 12)) in
  len (_get_summary_prompt text (py "short")) <= 50375.
Proof.
  intros text.
  apply (proj2 (proj2 (prompt_length text (py "short"))) (words 12)).
  vm_compute. reflexivity.
Defined.

(** The prompt determines the text: for one tier token, two different texts
    never render to the same prompt. *)
Theorem prompt_determines_text (text1 text2 length : pystr) :
  _get_summary_prompt text1 length = _get_summary_prompt text2 length ->
  text1 = text2.
Proof.
  unfold _get_summary_prompt. intros H.
  apply app_inv_head in H. apply app_inv_head in H.
  apply app_inv_head in H. now apply app_inv_tail in H.
Qed.

Lemma prompt_determines_text_witness :
  py "same text" = py "same text".
Proof.
  apply (prompt_determines_text (py "same text") (py "same text")
           (py "medium")).
  reflexivity.
Defined.

Lemma langsmith_init_enabled_iff_witness :
  let settings := {| gemini_api_key := Some "k"%string;
                     langchain_tracing_v2 := true;
                     langchain_endpoint := "https://api.smith.langchain.com";
                     langchain_api_key := Some "lsv2"%string;
                     langchain_project := "article-summary-generator" |} in
  exists svc environ' w',
    LangSmithService_init settings None
      (Some (OtherException "LangSmithAuthError" "401"))
      (fun _ => None) initial_world
    = (Ok (svc, environ'), w')
    /\ (enabled svc = true
        <-> langchain_tracing_v2 settings = true
            /\ truthy (langchain_api_key settings) = true
            /\ @None exn = None
            /\ Some (OtherException "LangSmithAuthError" "401") = None)
    /\ (enabled svc = true -> client svc = Some tt)
    /\ (@None exn <> None -> client svc = None)
    /\ io_trace w' = io_trace initial_world.
Proof.
  intros settings.
  apply (langsmith_init_enabled_iff settings None
           (Some (OtherException "LangSmithAuthError" "401"))
           (fun _ => None) initial_world).
Defined.

Lemma langsmith_init_forces_tracing_env_witness :
  let settings := {| gemini_api_key := Some "k"%string;
                     langchain_tracing_v2 := false;
                     langchain_endpoint := "https://api.smith.langchain.com";
                     langchain_api_key := None;
                     langchain_project := "article-summary-generator" |} in
  exists svc environ' w',
    LangSmithService_init settings None None (fun _ => None) initial_world
    = (Ok (svc, environ'), w')
    /\ environ' "LANGSMITH_TRACING"%string = Some "true"%string
    /\ environ' "LANGCHAIN_TRACING_V2"%string
       = Some (if langchain_tracing_v2 settings
                  && truthy (langchain_api_key settings)
               then "True" else "true")%string
    /\ (forall k,
          ~ In k ["LANGCHAIN_TRACING_V2"; "LANGSMITH_TRACING";
                  "LANGCHAIN_ENDPOINT"; "LANGCHAIN_API_KEY";
                  "LANGCHAIN_PROJECT"]%string ->
          environ' k = (fun _ : string => @None string) k).
Proof.
  intros settings.
  apply (langsmith_init_forces_tracing_env settings None None
           (fun _ => None) initial_world).
Defined.

(* ------------------------------------------------------------------ *)
(** ** Bounds on a validated text *)
(* ------------------------------------------------------------------ *)

Lemma join_space_length (ws : list pystr) :
  Forall word ws -> (2 * length ws <= length (join_space ws) + 1)%nat.
Proof.
  induction ws as [|w ws IH]; intros H; [simpl; lia|].
  inversion H as [|? ? [Hne _] Hws]; subst.
  assert (1 <= length w)%nat by (destruct w; [contradiction|simpl; lia]).
  destruct ws as [|w2 rest]; [simpl; lia|].
  change (join_space (w :: w2 :: rest))
    with (w ++ space :: join_space (w2 :: rest)).
  rewrite length_app. specialize (IH Hws).
  cbn [length] in *. lia.
Qed.

(** A text that passed request validation has between 19 and 50000 code
    points and between 10 and 25000 words: ten one-letter words and nine
    spaces are the shortest text there is, and [original_length] cannot
    exceed 25000. *)
Theorem validated_text_bounds (raw v : pystr) :
  SummaryRequest_text raw = Ok v ->
  19 <= len v <= 50000 /\ 10 <= len (split v) <= 25000.
Proof.
  intros H. apply SummaryRequest_text_inv in H as [Hraw Hval].
  apply validate_text_inv in Hval as [Hv Hwords].
  pose proof (len_normalize raw) as Hle. rewrite <- Hv in Hle.
  assert (Hjoin : v = join_space (split v)).
  { rewrite Hv at 1. rewrite normalize_join.
    now rewrite Hv, split_normalize. }
  pose proof (join_space_length (split v) (split_words v)) as Hlen.
  rewrite <- Hjoin in Hlen. unfold len in *. lia.
Qed.

Lemma validated_text_bounds_witness :
  19 <= len (py "a b c d e f g h i j") <= 50000
  /\ 10 <= len (split (py "a b c d e f g h i j")) <= 25000.
Proof.
  apply (validated_text_bounds padded_ten_words).
  vm_compute. reflexivity.
Defined.

(* ------------------------------------------------------------------ *)
(** ** The recent summaries of the page *)
(* ------------------------------------------------------------------ *)

Lemma nth_error_enumerate_from {A : Type} (l : list A) :
  forall k i,
    nth_error (enumerate_from k l) i
    = option_map (fun x => ((k + i)%nat, x)) (nth_error l i).
Proof.
  induction l as [|x l IH]; intros k i.
  - destruct i; reflexivity.
  - destruct i as [|i]; cbn [enumerate_from nth_error option_map].
    + now rewrite Nat.add_0_r.
    + rewrite IH. now replace (S k + i)%nat with (k + S i)%nat by lia.
Qed.

(** The panel shows the last three entries of the history, or all of them
    when there are fewer, newest first; the number in each title is the
    entry's position in the history counted from 1, and the preview is the
    first 100 code points of its summary followed by three dots. *)
Theorem recent_summaries_are_numbered_by_position
    (history : list HistoryEntry) :
  length (recent_summaries history) = Nat.min 3 (length history)
  /\ forall i label preview,
       nth_error (recent_summaries history) i = Some (label, preview) ->
       (i < 3)%nat
       /\ label = len history - Z.of_nat i
       /\ 1 <= label <= len history
       /\ exists entry,
            nth_error history (Z.to_nat (label - 1)) = Some entry
            /\ preview = firstn 100 (entry_summary entry) ++ py "..."
            /\ len preview <= 103.
Proof.
  assert (Hlast : length (rev (last_n 3 history))
                  = Nat.min 3 (length history)).
  { unfold last_n. rewrite length_rev, length_skipn. lia. }
  assert (Hprev : forall s : pystr, len (firstn 100 s ++ py "...") <= 103).
  { intros s. unfold len. rewrite length_app.
    pose proof (length_firstn 100 s) as Hf.
    change (length (py "...")) with 3%nat. lia. }
  split.
  - unfold recent_summaries. rewrite length_map.
    assert (Hen : forall (l : list HistoryEntry) k,
              length (enumerate_from k l) = length l).
    { induction l as [|x l IH]; intros k; [reflexivity|].
      cbn. now rewrite IH. }
    now rewrite Hen.
  - intros i label preview H. unfold recent_summaries in H.
    rewrite nth_error_map, nth_error_enumerate_from in H.
    destruct (nth_error (rev (last_n 3 history)) i) as [entry|] eqn:Hnth;
      [|discriminate].
    change (Some (len history - Z.of_nat (0 + i),
                  firstn 100 (entry_summary entry) ++ py "...")
            = Some (label, preview)) in H.
    injection H as <- <-.
    assert (Hi : (i < Nat.min 3 (length history))%nat).
    { rewrite <- Hlast. apply nth_error_Some. congruence. }
    rewrite nth_error_rev in Hnth.
    rewrite length_rev in Hlast. rewrite Hlast in Hnth.
    replace (i <? Nat.min 3 (length history))%nat with true in Hnth
      by (symmetry; now apply Nat.ltb_lt).
    unfold last_n in Hnth. rewrite nth_error_skipn in Hnth.
    unfold len. split; [lia|]. split; [reflexivity|]. split; [lia|].
    exists entry. split.
    + rewrite <- Hnth. f_equal. lia.
    + split; [reflexivity|apply Hprev].
Qed.

Lemma recent_summaries_are_numbered_by_position_witness :
  let e := fun s => {| entry_original_text := words 12;
                       entry_summary := s;
                       entry_timestamp := "2024-01-01 00:00:00" |} in
  let history := [e (py "one"); e (py "two"); e (py "three"); e (py "four")] in
  (1 < 3)%nat
  /\ 3 = len history - Z.of_nat 1
  /\ 1 <= 3 <= len history
  /\ exists entry,
       nth_error history (Z.to_nat (3 - 1)) = Some entry
       /\ py "three..." = firstn 100 (entry_summary entry) ++ py "..."
       /\ len (py "three...") <= 103.
Proof.
  intros e history.
  apply (proj2 (recent_summaries_are_numbered_by_position history)
           1%nat 3 (py "three...")).
  reflexivity.
Defined.
